(** * UsageTracker: the usage-tracking client of the Tech Support Client Portal

    A shallow embedding of [examples/usage_tracker.py]: the exception
    classes, the constructor [UsageTracker.__init__], the header builder
    [_get_headers] and the two operations [track_usage] and [get_usage].

    The specification renames a few things; the development keeps the
    names of the source:
    - [submit_usage] of the specification is [track_usage];
    - [base_url] is [portal_url];
    - [ConfigError] is the [ValueError] raised by the constructor. *)

From Stdlib Require Import String Ascii List ZArith Bool Lia.
From Stdlib Require Import DecimalString Floats.
Import ListNotations.
Local Open Scope string_scope.
Local Open Scope Z_scope.

(** ** Python values and strings *)

Module Py.

(** Values the JSON decoder of Python produces, and the values the
    client puts into request bodies. *)
#[local] Unset Elimination Schemes.
Inductive value : Type :=
| PyNone
| PyBool (b : bool)
| PyInt (z : Z)
| PyFloat (x : float)
| PyStr (s : string)
| PyList (l : list value)
| PyDict (d : list (string * value)).
#[local] Set Elimination Schemes.

(** [type(v).__name__] *)
Definition type_name (v : value) : string :=
  match v with
  | PyNone => "NoneType"
  | PyBool _ => "bool"
  | PyInt _ => "int"
  | PyFloat _ => "float"
  | PyStr _ => "str"
  | PyList _ => "list"
  | PyDict _ => "dict"
  end.

(** Truth value of a [str]: the empty string is false. *)
Definition truthy (s : string) : bool :=
  match s with
  | EmptyString => false
  | String _ _ => true
  end.

(** Truth value of an [Optional[str]]: [None] and [""] are false. *)
Definition truthy_opt (o : option string) : bool :=
  match o with
  | None => false
  | Some s => truthy s
  end.

(** [c in chars] for a character and a string of characters. *)
Fixpoint mem (c : ascii) (chars : string) : bool :=
  match chars with
  | EmptyString => false
  | String d rest => Ascii.eqb c d || mem c rest
  end.

(** [s.rstrip(chars)]: drop the longest suffix made of characters of
    [chars]. *)
Fixpoint rstrip (chars : string) (s : string) : string :=
  match s with
  | EmptyString => EmptyString
  | String c rest =>
      match rstrip chars rest with
      | EmptyString => if mem c chars then EmptyString else String c EmptyString
      | kept => String c kept
      end
  end.

(** [str(n)] for an [int]. *)
Definition str_of_int (z : Z) : string :=
  NilZero.string_of_int (Z.to_int z).

(** Insertion-ordered dictionaries with string keys. *)
Definition dict (V : Type) : Type := list (string * V).

(** [d[k] = v]: replace the value of an existing key in place, append
    a new key at the end. *)
Fixpoint setitem {V : Type} (d : dict V) (k : string) (v : V) : dict V :=
  match d with
  | [] => [(k, v)]
  | (k', v') :: rest =>
      if String.eqb k' k then (k', v) :: rest
      else (k', v') :: setitem rest k v
  end.

(** [d.get(k)] as an option. *)
Fixpoint lookup {V : Type} (d : dict V) (k : string) : option V :=
  match d with
  | [] => None
  | (k', v') :: rest => if String.eqb k' k then Some v' else lookup rest k
  end.

(** [d.get(k, default)] *)
Definition get {V : Type} (d : dict V) (k : string) (default : V) : V :=
  match lookup d k with
  | Some v => v
  | None => default
  end.

(** [list(d.keys())] *)
Definition keys {V : Type} (d : dict V) : list string := map fst d.

End Py.


(** ** Exceptions *)

Module Exc.

(** The exception classes the client can meet: Python's own, those of
    this module ([UsageTrackerError] and its two subclasses) and those
    of [requests.exceptions].  [ConnectionError] is the class of
    [requests.exceptions], not the builtin of that name. *)
Inductive class : Type :=
| BaseException
| Exception
| ValueError
| AttributeError
| RuntimeError
| RecursionError
| OSError
| UsageTrackerError
| AuthenticationError
| ValidationError
| RequestException
| InvalidJSONError
| JSONDecodeError
| HTTPError
| ConnectionError
| ProxyError
| SSLError
| Timeout
| ConnectTimeout
| ReadTimeout
| TooManyRedirects
| MissingSchema
| InvalidURL.

Definition class_eq_dec (c d : class) : {c = d} + {c <> d}.
Proof. decide equality. Defined.

Definition class_eqb (c d : class) : bool :=
  if class_eq_dec c d then true else false.

(** The direct base classes, as the [class] statements declare them.
    [JSONDecodeError] derives from [InvalidJSONError], hence from
    [RequestException], since requests 2.27. *)
Definition bases (c : class) : list class :=
  match c with
  | BaseException => []
  | Exception => [BaseException]
  | ValueError | AttributeError | RuntimeError | OSError => [Exception]
  | RecursionError => [RuntimeError]
  | UsageTrackerError => [Exception]
  | AuthenticationError | ValidationError => [UsageTrackerError]
  | RequestException => [OSError]
  | InvalidJSONError | HTTPError | ConnectionError | Timeout
  | TooManyRedirects => [RequestException]
  | JSONDecodeError => [InvalidJSONError; ValueError]
  | ProxyError | SSLError => [ConnectionError]
  | ConnectTimeout => [ConnectionError; Timeout]
  | ReadTimeout => [Timeout]
  | MissingSchema | InvalidURL => [RequestException; ValueError]
  end.

Fixpoint issubclass_upto (depth : nat) (c d : class) : bool :=
  class_eqb c d ||
  match depth with
  | O => false
  | S depth' => existsb (fun b => issubclass_upto depth' b d) (bases c)
  end.

(** [issubclass(c, d)]; no chain of bases is longer than six. *)
Definition issubclass (c d : class) : bool := issubclass_upto 6 c d.

(** An exception object: its class and [str(e)]. *)
Record t : Type := make { cls : class; message : string }.

(** [isinstance(e, d)] *)
Definition isinstance (e : t) (d : class) : bool := issubclass (cls e) d.

End Exc.

(** ** HTTP as seen through [requests] *)

Inductive Method : Type := GET | POST.

(** One call of [requests.post] or [requests.get] with its keyword
    arguments; an argument that is not passed is [None]. *)
Record Request : Type := {
  method : Method;
  url : string;
  json : option (Py.dict Py.value);
  params : option (Py.dict string);
  headers : Py.dict string;
  req_timeout : Z
}.

(** What [response.json()] does on a response.  It hands the body to
    Python's JSON decoder, and the outcome is the decoder's, not that of
    the JSON grammar:
    - it returns a value, also for the bodies the decoder accepts that
      are not JSON (the literals [NaN], [Infinity] and [-Infinity]);
    - it raises the [JSONDecodeError] of [requests] with a detail when
      the decoder rejects the body;
    - it lets another exception of the decoder escape as it is: the
      builtin [ValueError] for an integer with more digits than the
      interpreter converts, [RecursionError] for a body nested too
      deeply, and these whether or not the body is JSON. *)
Inductive Decoded : Type :=
| Decodes (v : Py.value)
| Undecodable (detail : string)
| DecoderRaises (e : Exc.t).

(** A response object, by what the client reads of it. *)
Record Response : Type := {
  status_code : Z;
  body : Decoded
}.

(** [response.ok]: [raise_for_status()] would not raise, which it does
    for the 4xx and 5xx codes. *)
Definition ok (r : Response) : bool :=
  negb ((400 <=? status_code r) && (status_code r <? 600)).

(** What a call of [requests] comes to: a response, or an exception
    raised by the transport. *)
Inductive Transport : Type :=
| Responds (r : Response)
| Fails (e : Exc.t).

(** ** The instance and the world it runs in *)

(** The attributes of a [UsageTracker] instance. *)
Record UsageTracker : Type := {
  portal_url : string;
  auth_token : string;
  project_id : string;
  timeout : Z
}.

(** The instance and the requests issued so far, oldest first. *)
Record World : Type := {
  self : UsageTracker;
  issued : list Request
}.

(** Result of a statement or a call: a value, or a raised exception. *)
Inductive outcome (A : Type) : Type :=
| Return (a : A)
| Raise (e : Exc.t).
Arguments Return {A} a.
Arguments Raise {A} e.

(** Computations over the world that may raise. *)
Definition M (A : Type) : Type := World -> outcome A * World.

Definition ret {A : Type} (a : A) : M A := fun w => (Return a, w).

Definition bind {A B : Type} (m : M A) (k : A -> M B) : M B :=
  fun w =>
    match m w with
    | (Return a, w') => k a w'
    | (Raise e, w') => (Raise e, w')
    end.

Notation "x <- m ;; k" := (bind m (fun x => k))
  (at level 61, m at next level, right associativity).
Notation "m ;; k" := (bind m (fun _ => k))
  (at level 61, right associativity).

(** [raise cls(message)] *)
Definition raise {A : Type} (c : Exc.class) (message : string) : M A :=
  fun w => (Raise (Exc.make c message), w).

(** An exception object that is already made propagates. *)
Definition reraise {A : Type} (e : Exc.t) : M A :=
  fun w => (Raise e, w).

(** [self.<attribute>] read. *)
Definition attr {A : Type} (field : UsageTracker -> A) : M A :=
  fun w => (Return (field (self w)), w).

(** [self.<attribute> = v], one definition per attribute. *)
Definition set_portal_url (v : string) : M unit :=
  fun w => (Return tt,
    {| self := {| portal_url := v; auth_token := auth_token (self w);
                  project_id := project_id (self w); timeout := timeout (self w) |};
       issued := issued w |}).

Definition set_auth_token (v : string) : M unit :=
  fun w => (Return tt,
    {| self := {| portal_url := portal_url (self w); auth_token := v;
                  project_id := project_id (self w); timeout := timeout (self w) |};
       issued := issued w |}).

Definition set_project_id (v : string) : M unit :=
  fun w => (Return tt,
    {| self := {| portal_url := portal_url (self w); auth_token := auth_token (self w);
                  project_id := v; timeout := timeout (self w) |};
       issued := issued w |}).

Definition set_timeout (v : Z) : M unit :=
  fun w => (Return tt,
    {| self := {| portal_url := portal_url (self w); auth_token := auth_token (self w);
                  project_id := project_id (self w); timeout := v |};
       issued := issued w |}).

(** The first [except c:] clause whose class the exception is an
    instance of, in the order the clauses are written. *)
Fixpoint matching_clause {A : Type}
    (clauses : list (Exc.class * (Exc.t -> M A))) (e : Exc.t)
    : option (M A) :=
  match clauses with
  | [] => None
  | (c, handler) :: rest =>
      if Exc.isinstance e c then Some (handler e)
      else matching_clause rest e
  end.

(** [try: body except c1 as e: h1 except c2 as e: h2 ...]; an exception
    no clause matches propagates. *)
Definition try_except {A : Type} (body : M A)
    (clauses : list (Exc.class * (Exc.t -> M A))) : M A :=
  fun w =>
    match body w with
    | (Return a, w') => (Return a, w')
    | (Raise e, w') =>
        match matching_clause clauses e with
        | Some handler => handler w'
        | None => (Raise e, w')
        end
    end.

(** [response.json()] *)
Definition response_json (r : Response) : M Py.value :=
  match body r with
  | Decodes v => ret v
  | Undecodable detail => raise Exc.JSONDecodeError detail
  | DecoderRaises e => reraise e
  end.

(** The default timeout of the constructor, in seconds. *)
Definition default_timeout : Z := 30.

(** The object a constructor call hands to [__init__]: it has no
    attribute yet; [__init__] assigns all four before it reads any, so
    the placeholders below are never observed. *)
Definition blank : World :=
  {| self := {| portal_url := ""; auth_token := ""; project_id := ""; timeout := 0 |};
     issued := [] |}.

(** [UsageTracker.__init__] *)
Definition __init__ (portal_url_arg auth_token_arg project_id_arg : string)
    (timeout_arg : Z) : M unit :=
  set_portal_url (Py.rstrip "/" portal_url_arg) ;;
  set_auth_token auth_token_arg ;;
  set_project_id project_id_arg ;;
  set_timeout timeout_arg ;;
  p <- attr portal_url ;;
  if negb (Py.truthy p) then raise Exc.ValueError "portal_url is required"
  else
    a <- attr auth_token ;;
    if negb (Py.truthy a) then raise Exc.ValueError "auth_token is required"
    else
      i <- attr project_id ;;
      if negb (Py.truthy i) then raise Exc.ValueError "project_id is required"
      else ret tt.

(** The call [UsageTracker(portal_url, auth_token, project_id, timeout)]:
    the new instance when [__init__] returns; when it raises, the
    exception, and the caller gets no object. *)
Definition new (portal_url_arg auth_token_arg project_id_arg : string)
    (timeout_arg : Z) : outcome UsageTracker :=
  match __init__ portal_url_arg auth_token_arg project_id_arg timeout_arg blank with
  | (Return _, w) => Return (self w)
  | (Raise e, _) => Raise e
  end.

(** [UsageTracker._get_headers] *)
Definition _get_headers : M (Py.dict string) :=
  token <- attr auth_token ;;
  ret [ ("Authorization", "Bearer " ++ token);
        ("Content-Type", "application/json");
        ("User-Agent", "TechSupportPortal-UsageTracker/1.0") ].

Section Client.

(** The portal and the network between it and the client: what a
    request comes to, given the requests issued before it. *)
Variable portal : list Request -> Request -> Transport.

(** [str(v)] for the values that are neither strings, [None], booleans
    nor integers (floats, lists, dictionaries): Python's own
    formatting, which the client does not define. *)
Variable repr : Py.value -> string.

(** What an f-string puts for [{v}]. *)
Definition format (v : Py.value) : string :=
  match v with
  | Py.PyStr s => s
  | Py.PyNone => "None"
  | Py.PyBool true => "True"
  | Py.PyBool false => "False"
  | Py.PyInt z => Py.str_of_int z
  | other => repr other
  end.

(** Issue a request: it is recorded, and the transport answers or
    fails. *)
Definition send (req : Request) : M Response :=
  fun w =>
    let w' := {| self := self w; issued := issued w ++ [req] |} in
    match portal (issued w) req with
    | Responds r => (Return r, w')
    | Fails e => (Raise e, w')
    end.

(** [requests.post(url, json=..., headers=..., timeout=...)] *)
Definition requests_post (u : string) (payload : Py.dict Py.value)
    (h : Py.dict string) (t : Z) : M Response :=
  send {| method := POST; url := u; json := Some payload; params := None;
          headers := h; req_timeout := t |}.

(** [requests.get(url, params=..., headers=..., timeout=...)] *)
Definition requests_get (u : string) (query : Py.dict string)
    (h : Py.dict string) (t : Z) : M Response :=
  send {| method := GET; url := u; json := None; params := Some query;
          headers := h; req_timeout := t |}.

(** [error_data.get('error', 'Unknown error')]: only a dictionary has
    the method. *)
Definition get_error (error_data : Py.value) : M Py.value :=
  match error_data with
  | Py.PyDict d => ret (Py.get d "error" (Py.PyStr "Unknown error"))
  | other =>
      raise Exc.AttributeError
        ("'" ++ Py.type_name other ++ "' object has no attribute 'get'")
  end.

(** [UsageTracker.track_usage] *)
Definition track_usage (provider model : string)
    (input_tokens output_tokens : Z) (request_timestamp : option string)
    : M Py.value :=
  base <- attr portal_url ;;
  let url := base ++ "/api/usage" in
  project <- attr project_id ;;
  let payload :=
    [ ("project_id", Py.PyStr project);
      ("provider", Py.PyStr provider);
      ("model", Py.PyStr model);
      ("input_tokens", Py.PyInt input_tokens);
      ("output_tokens", Py.PyInt output_tokens) ] in
  let payload :=
    match request_timestamp with
    | Some ts =>
        if Py.truthy ts
        then Py.setitem payload "request_timestamp" (Py.PyStr ts)
        else payload
    | None => payload
    end in
  try_except
    (h <- _get_headers ;;
     t <- attr timeout ;;
     response <- requests_post url payload h t ;;
     if status_code response =? 401 then
       raise Exc.AuthenticationError "Authentication failed. Check your auth token."
     else if status_code response =? 422 then
       error_data <- response_json response ;;
       detail <- get_error error_data ;;
       raise Exc.ValidationError ("Validation failed: " ++ format detail)
     else if status_code response =? 404 then
       raise Exc.UsageTrackerError "Project not found or access denied"
     else if negb (ok response) then
       raise Exc.UsageTrackerError
         ("API request failed with status " ++ Py.str_of_int (status_code response))
     else response_json response)
    [ (Exc.Timeout, fun _ =>
         t <- attr timeout ;;
         raise Exc.UsageTrackerError
           ("Request timed out after " ++ Py.str_of_int t ++ " seconds"));
      (Exc.ConnectionError, fun _ =>
         base <- attr portal_url ;;
         raise Exc.UsageTrackerError ("Failed to connect to " ++ base));
      (Exc.RequestException, fun e =>
         raise Exc.UsageTrackerError ("Request failed: " ++ Exc.message e)) ].

(** [UsageTracker.get_usage] *)
Definition get_usage (date_from date_to : option string) : M Py.value :=
  base <- attr portal_url ;;
  let url := base ++ "/api/usage" in
  project <- attr project_id ;;
  let params := [ ("project_id", project) ] in
  let params :=
    match date_from with
    | Some d => if Py.truthy d then Py.setitem params "date_from" d else params
    | None => params
    end in
  let params :=
    match date_to with
    | Some d => if Py.truthy d then Py.setitem params "date_to" d else params
    | None => params
    end in
  try_except
    (h <- _get_headers ;;
     t <- attr timeout ;;
     response <- requests_get url params h t ;;
     if status_code response =? 401 then
       raise Exc.AuthenticationError "Authentication failed. Check your auth token."
     else if negb (ok response) then
       raise Exc.UsageTrackerError
         ("API request failed with status " ++ Py.str_of_int (status_code response))
     else response_json response)
    [ (Exc.RequestException, fun e =>
         raise Exc.UsageTrackerError ("Request failed: " ++ Exc.message e)) ].

End Client.

(** ** Vocabulary of the statements *)

(** The request a call adds to the log of a world, if it adds one. *)
Definition request_issued {A : Type} (call : M A) (w : World) : option Request :=
  nth_error (issued (snd (call w))) (length (issued w)).

(** The call, run in [w] against [portal], issues a request and gets
    [t] for it from the transport. *)
Definition receives (portal : list Request -> Request -> Transport)
    {A : Type} (call : M A) (w : World) (t : Transport) : Prop :=
  exists req, request_issued call w = Some req /\ portal (issued w) req = t.

(** A mocked transport: every request comes to [t]. *)
Definition answering (t : Transport) : list Request -> Request -> Transport :=
  fun _ _ => t.

(** Would [except c:] catch what the call did?  A returned value is not
    caught. *)
Definition caught_by {A : Type} (c : Exc.class) (o : outcome A) : bool :=
  match o with
  | Raise e => Exc.isinstance e c
  | Return _ => false
  end.

(** Every character of [s] is one of [chars]. *)
Fixpoint all_in (chars : string) (s : string) : bool :=
  match s with
  | EmptyString => true
  | String c rest => Py.mem c chars && all_in chars rest
  end.

(** [n] slashes. *)
Fixpoint slashes (n : nat) : string :=
  match n with
  | O => EmptyString
  | S n' => String "/" (slashes n')
  end.

(** [s.endswith(suffix)] as a proposition. *)
Definition endswith (s suffix : string) : Prop :=
  exists front, s = front ++ suffix.

(** A computation that leaves the instance as it found it. *)
Definition keeps_self {A : Type} (m : M A) : Prop :=
  forall w, self (snd (m w)) = self w.

(** ** Data of the examples *)

(** An instance as the constructor builds it from the portal of the
    documentation, with the default timeout, before any request. *)
Definition example_world : World :=
  {| self := {| portal_url := "https://portal.example.com";
                auth_token := "your-clerk-token";
                project_id := "your-project-id";
                timeout := default_timeout |};
     issued := [] |}.

(** A stand-in for Python's formatting of compound values. *)
Definition example_repr (v : Py.value) : string :=
  "<" ++ Py.type_name v ++ ">".

(** A 422 response whose body is [{"error":"input_tokens must be >= 0"}]. *)
Definition rejected_422 : Response :=
  {| status_code := 422;
     body := Decodes (Py.PyDict [("error", Py.PyStr "input_tokens must be >= 0")]) |}.

(** A 422 response whose body is the empty JSON object. *)
Definition bare_422 : Response :=
  {| status_code := 422; body := Decodes (Py.PyDict []) |}.

(** A 422 response whose body is empty: the decoder rejects it, with
    this detail. *)
Definition garbled_422 : Response :=
  {| status_code := 422;
     body := Undecodable "Expecting value: line 1 column 1 (char 0)" |}.

(** A 200 response whose body is empty. *)
Definition garbled_200 : Response :=
  {| status_code := 200;
     body := Undecodable "Expecting value: line 1 column 1 (char 0)" |}.

(** A 401 response. *)
Definition unauthorized_401 : Response :=
  {| status_code := 401; body := Decodes (Py.PyDict [("error", Py.PyStr "Unauthorized")]) |}.

(** A read timeout and a refused connection, as [requests] raises them. *)
Definition read_timeout : Exc.t :=
  Exc.make Exc.ReadTimeout "Read timed out. (read timeout=30)".

Definition refused : Exc.t :=
  Exc.make Exc.ConnectionError "Connection refused".

(** ** A caller that makes several calls *)

(** One call of an operation, with its arguments. *)
Inductive Call : Type :=
| TrackUsage (provider model : string) (input_tokens output_tokens : Z)
    (request_timestamp : option string)
| GetUsage (date_from date_to : option string).

(** The HTTP method a call uses. *)
Definition method_of (c : Call) : Method :=
  match c with
  | TrackUsage _ _ _ _ _ => POST
  | GetUsage _ _ => GET
  end.

Section Caller.

Variable portal : list Request -> Request -> Transport.
Variable repr : Py.value -> string.

Definition perform (c : Call) : M Py.value :=
  match c with
  | TrackUsage p m i o ts => track_usage portal repr p m i o ts
  | GetUsage df dt => get_usage portal df dt
  end.

(** The world after a caller has made the calls one after the other,
    going on whether a call returned or raised. *)
Fixpoint after_calls (calls : list Call) (w : World) : World :=
  match calls with
  | [] => w
  | c :: rest => after_calls rest (snd (perform c w))
  end.

End Caller.

(** ** More data for the examples *)

(** A 422 response whose body is the JSON list [["bad"]]. *)
Definition list_422 : Response :=
  {| status_code := 422; body := Decodes (Py.PyList [Py.PyStr "bad"]) |}.

(** A 302 response with a JSON body. *)
Definition redirect_302 : Response :=
  {| status_code := 302; body := Decodes (Py.PyDict [("count", Py.PyInt 0)]) |}.

(** A 404 and a 503 response whose bodies are empty. *)
Definition not_found_404 : Response :=
  {| status_code := 404; body := Undecodable "Expecting value: line 1 column 1 (char 0)" |}.

Definition unavailable_503 : Response :=
  {| status_code := 503; body := Undecodable "Expecting value: line 1 column 1 (char 0)" |}.

(** A 200 response whose body is [{"cost_usd":NaN}]: not JSON, since
    JSON has no [NaN], but the decoder accepts it. *)
Definition nan_200 : Response :=
  {| status_code := 200;
     body := Decodes (Py.PyDict [("cost_usd", Py.PyFloat nan)]) |}.

(** A 200 response whose body is a hundred thousand opening brackets:
    not JSON, and the decoder gives up on the nesting before it finds
    the error. *)
Definition deep_200 : Response :=
  {| status_code := 200;
     body := DecoderRaises
       (Exc.make Exc.RecursionError
          "maximum recursion depth exceeded while decoding a JSON array from a unicode string") |}.

(** A 422 response whose body is a JSON object with an integer of 4301
    digits: JSON, but more digits than the interpreter converts. *)
Definition huge_int_422 : Response :=
  {| status_code := 422;
     body := DecoderRaises
       (Exc.make Exc.ValueError
          "Exceeds the limit (4300) for integer string conversion: value has 4301 digits; use sys.set_int_max_str_digits() to increase the limit") |}.

(** A 200 response with the same kind of body. *)
Definition huge_int_200 : Response :=
  {| status_code := 200; body := body huge_int_422 |}.

(** Failures of the transport that are neither timeouts nor connection
    failures: one of [requests], one that is not. *)
Definition too_many_redirects : Exc.t :=
  Exc.make Exc.TooManyRedirects "Exceeded 30 redirects.".

Definition bad_timeout : Exc.t :=
  Exc.make Exc.ValueError
    "Attempted to set connect timeout to 0, but the timeout cannot be set to a value less than or equal to 0.".

(** * Properties *)

(** ** Strings *)

Lemma append_slash_nonempty (front : string) : front ++ "/" <> "".
Proof. destruct front; discriminate. Qed.

(** Stripping removes a run of slashes at the end, and nothing else. *)
Lemma rstrip_decompose (s : string) :
  exists n, s = Py.rstrip "/" s ++ slashes n.
Proof.
  induction s as [|c rest [n IH]].
  - exists O. reflexivity.
  - simpl. destruct (Py.rstrip "/" rest) as [|a kept] eqn:Hrest.
    + destruct (Ascii.eqb c "/") eqn:Hc; simpl in *.
      * apply Ascii.eqb_eq in Hc. subst c. exists (S n). simpl. congruence.
      * exists n. congruence.
    + exists n. simpl in *. congruence.
Qed.

(** What is left after stripping does not end with a slash. *)
Lemma rstrip_no_trailing_slash (s : string) :
  ~ endswith (Py.rstrip "/" s) "/".
Proof.
  unfold endswith. induction s as [|c rest IH]; intros [front Hfront].
  - simpl in Hfront. symmetry in Hfront. now apply append_slash_nonempty in Hfront.
  - simpl in Hfront.
    destruct (Py.rstrip "/" rest) as [|a kept] eqn:Hrest.
    + destruct (Ascii.eqb c "/") eqn:Hc; simpl in Hfront.
      * symmetry in Hfront. now apply append_slash_nonempty in Hfront.
      * destruct front as [|c' front']; simpl in Hfront.
        -- injection Hfront as ->. now rewrite Ascii.eqb_refl in Hc.
        -- injection Hfront as _ Hempty. symmetry in Hempty.
           now apply append_slash_nonempty in Hempty.
    + destruct front as [|c' front']; simpl in Hfront.
      * discriminate Hfront.
      * injection Hfront as _ Htail. apply IH. now exists front'.
Qed.

(** A string of slashes strips to nothing. *)
Lemma rstrip_all_slashes (s : string) :
  all_in "/" s = true -> Py.rstrip "/" s = "".
Proof.
  induction s as [|c rest IH]; intros Hall.
  - reflexivity.
  - simpl in Hall. apply andb_true_iff in Hall as [Hc Hrest].
    simpl. rewrite (IH Hrest). now rewrite Hc.
Qed.

Lemma truthy_false (s : string) : Py.truthy s = false <-> s = "".
Proof. destruct s; simpl; split; intros H; congruence. Qed.

Lemma truthy_true (s : string) : Py.truthy s = true <-> s <> "".
Proof. destruct s; simpl; split; intros H; congruence. Qed.

(** ** The constructor *)

(** The constructor by cases on its three checks, in their order. *)
Lemma new_cases (pu a pid : string) (t : Z) :
  new pu a pid t =
    if negb (Py.truthy (Py.rstrip "/" pu)) then
      Raise (Exc.make Exc.ValueError "portal_url is required")
    else if negb (Py.truthy a) then
      Raise (Exc.make Exc.ValueError "auth_token is required")
    else if negb (Py.truthy pid) then
      Raise (Exc.make Exc.ValueError "project_id is required")
    else
      Return {| portal_url := Py.rstrip "/" pu; auth_token := a;
                project_id := pid; timeout := t |}.
Proof.
  unfold new, __init__, bind, set_portal_url, set_auth_token, set_project_id,
    set_timeout, attr, raise, ret. simpl.
  destruct (Py.truthy (Py.rstrip "/" pu)); simpl; [|reflexivity].
  destruct (Py.truthy a); simpl; [|reflexivity].
  destruct (Py.truthy pid); reflexivity.
Qed.

(** ** The instance is only read *)

Section Frame.

Context {A B : Type}.

Lemma keeps_self_ret (a : A) : keeps_self (ret a).
Proof. intros w. reflexivity. Qed.

Lemma keeps_self_raise (c : Exc.class) (msg : string) :
  keeps_self (@raise A c msg).
Proof. intros w. reflexivity. Qed.

Lemma keeps_self_reraise (e : Exc.t) : keeps_self (@reraise A e).
Proof. intros w. reflexivity. Qed.

Lemma keeps_self_attr (field : UsageTracker -> A) : keeps_self (attr field).
Proof. intros w. reflexivity. Qed.

Lemma keeps_self_bind (m : M A) (k : A -> M B) :
  keeps_self m -> (forall a, keeps_self (k a)) -> keeps_self (bind m k).
Proof.
  intros Hm Hk w. unfold bind. specialize (Hm w).
  destruct (m w) as [[a|e] w']; simpl in *.
  - now rewrite Hk.
  - exact Hm.
Qed.

Lemma keeps_self_try_except (body : M A)
    (clauses : list (Exc.class * (Exc.t -> M A))) :
  keeps_self body ->
  Forall (fun clause => forall e, keeps_self (snd clause e)) clauses ->
  keeps_self (try_except body clauses).
Proof.
  intros Hbody Hclauses w. unfold try_except. specialize (Hbody w).
  destruct (body w) as [[a|e] w']; simpl in *; [exact Hbody|].
  induction Hclauses as [|[c handler] rest Hhead _ IH]; simpl.
  - exact Hbody.
  - destruct (Exc.isinstance e c).
    + now rewrite (Hhead e).
    + exact IH.
Qed.

End Frame.

Lemma keeps_self_send portal (req : Request) : keeps_self (send portal req).
Proof.
  intros w. unfold send. now destruct (portal (issued w) req).
Qed.

Lemma keeps_self_response_json (r : Response) : keeps_self (response_json r).
Proof.
  unfold response_json.
  destruct (body r);
    [apply keeps_self_ret | apply keeps_self_raise | apply keeps_self_reraise].
Qed.

Lemma keeps_self_get_error (v : Py.value) : keeps_self (get_error v).
Proof.
  destruct v; first [apply keeps_self_ret | apply keeps_self_raise].
Qed.

Lemma keeps_self_get_headers : keeps_self _get_headers.
Proof.
  apply keeps_self_bind; [apply keeps_self_attr | intros; apply keeps_self_ret].
Qed.

Create HintDb frame.
#[local] Hint Resolve keeps_self_ret keeps_self_raise keeps_self_attr
  keeps_self_send keeps_self_response_json keeps_self_get_error
  keeps_self_get_headers : frame.

(** Goes through a method body: a sequence, a [try], a conditional, or
    one of the primitives above. *)
Ltac frame :=
  repeat first
    [ apply keeps_self_bind; [|intros ?]
    | apply keeps_self_try_except; [|repeat constructor; intros ?]
    | match goal with |- keeps_self (if ?c then _ else _) => destruct c end
    | solve [unfold requests_post, requests_get; auto with frame] ].

Lemma keeps_self_track_usage portal repr p m i o ts :
  keeps_self (track_usage portal repr p m i o ts).
Proof. unfold track_usage. frame. Qed.

Lemma keeps_self_get_usage portal df dt :
  keeps_self (get_usage portal df dt).
Proof. unfold get_usage. frame. Qed.

(** ** One request per call *)

Lemma nth_error_snoc {A : Type} (l : list A) (x : A) :
  nth_error (l ++ [x]) (length l) = Some x.
Proof.
  induction l as [|y l IH]; simpl; [reflexivity | exact IH].
Qed.

Ltac run_call :=
  unfold track_usage, get_usage, try_except, bind, attr, _get_headers,
    requests_post, requests_get, send, ret, raise, reraise, response_json,
    get_error;
  simpl.

Ltac split_branches :=
  repeat match goal with
  | |- context [match ?p ?l ?r with Responds _ => _ | Fails _ => _ end] =>
      destruct (p l r) eqn:?
  | |- context [if ?c then _ else _] => destruct c eqn:?
  | |- context [match body ?r with
                | Decodes _ => _ | Undecodable _ => _ | DecoderRaises _ => _
                end] =>
      destruct (body r) eqn:?
  | |- context [match ?v with Py.PyDict _ => _ | _ => _ end] => destruct v
  end; simpl.

(** The body of a usage record as [track_usage] sends it. *)
Lemma track_usage_world portal repr p m i o ts w :
  snd (track_usage portal repr p m i o ts w) =
    {| self := self w;
       issued := (issued w ++
         [ {| method := POST;
              url := (portal_url (self w) ++ "/api/usage")%string;
              json := Some
                ([ ("project_id", Py.PyStr (project_id (self w)));
                   ("provider", Py.PyStr p);
                   ("model", Py.PyStr m);
                   ("input_tokens", Py.PyInt i);
                   ("output_tokens", Py.PyInt o) ] ++
                 match ts with
                 | Some s =>
                     if Py.truthy s then [("request_timestamp", Py.PyStr s)] else []
                 | None => []
                 end)%list;
              params := None;
              headers :=
                [ ("Authorization", ("Bearer " ++ auth_token (self w))%string);
                  ("Content-Type", "application/json");
                  ("User-Agent", "TechSupportPortal-UsageTracker/1.0") ];
              req_timeout := timeout (self w) |} ])%list |}.
Proof.
  destruct ts as [s|]; [destruct (Py.truthy s) eqn:Hs|];
    run_call; rewrite ?Hs; unfold ret, raise, reraise; split_branches; reflexivity.
Qed.

Lemma get_usage_world portal df dt w :
  snd (get_usage portal df dt w) =
    {| self := self w;
       issued := (issued w ++
         [ {| method := GET;
              url := (portal_url (self w) ++ "/api/usage")%string;
              json := None;
              params := Some
                ([ ("project_id", project_id (self w)) ] ++
                 match df with
                 | Some d => if Py.truthy d then [("date_from", d)] else []
                 | None => []
                 end ++
                 match dt with
                 | Some d => if Py.truthy d then [("date_to", d)] else []
                 | None => []
                 end)%list;
              headers :=
                [ ("Authorization", ("Bearer " ++ auth_token (self w))%string);
                  ("Content-Type", "application/json");
                  ("User-Agent", "TechSupportPortal-UsageTracker/1.0") ];
              req_timeout := timeout (self w) |} ])%list |}.
Proof.
  destruct df as [a|]; [destruct (Py.truthy a) eqn:Ha|];
    (destruct dt as [b|]; [destruct (Py.truthy b) eqn:Hb|]);
    run_call; rewrite ?Ha, ?Hb; unfold ret, raise, reraise; split_branches; reflexivity.
Qed.

Lemma track_usage_issues_one portal repr p m i o ts w :
  exists req,
    issued (snd (track_usage portal repr p m i o ts w)) = (issued w ++ [req])%list
    /\ request_issued (track_usage portal repr p m i o ts) w = Some req.
Proof.
  unfold request_issued. rewrite track_usage_world. simpl.
  eexists. split; [reflexivity | apply nth_error_snoc].
Qed.

Lemma get_usage_issues_one portal df dt w :
  exists req,
    issued (snd (get_usage portal df dt w)) = (issued w ++ [req])%list
    /\ request_issued (get_usage portal df dt) w = Some req.
Proof.
  unfold request_issued. rewrite get_usage_world. simpl.
  eexists. split; [reflexivity | apply nth_error_snoc].
Qed.

(** A call depends on the portal only through what comes back for the
    one request it issues: it runs as against a mocked transport. *)
Lemma track_usage_mock portal repr p m i o ts w t :
  receives portal (track_usage portal repr p m i o ts) w t ->
  track_usage portal repr p m i o ts w =
    track_usage (answering t) repr p m i o ts w.
Proof.
  intros (req & Hreq & Hnet). revert Hreq.
  unfold request_issued. rewrite track_usage_world. simpl.
  rewrite nth_error_snoc. intros [= <-].
  unfold answering.
  destruct ts as [s|]; [destruct (Py.truthy s) eqn:Hs|]; simpl in Hnet;
    subst t; run_call; rewrite ?Hs; reflexivity.
Qed.

Lemma get_usage_mock portal df dt w t :
  receives portal (get_usage portal df dt) w t ->
  get_usage portal df dt w = get_usage (answering t) df dt w.
Proof.
  intros (req & Hreq & Hnet). revert Hreq.
  unfold request_issued. rewrite get_usage_world. simpl.
  rewrite nth_error_snoc. intros [= <-].
  unfold answering.
  destruct df as [a|]; [destruct (Py.truthy a) eqn:Ha|];
    (destruct dt as [b|]; [destruct (Py.truthy b) eqn:Hb|]); simpl in Hnet;
    subst t; run_call; rewrite ?Ha, ?Hb; reflexivity.
Qed.

(** A mocked transport does give the call what it is set to give. *)
Lemma answering_received_by_track_usage t repr p m i o ts w :
  receives (answering t) (track_usage (answering t) repr p m i o ts) w t.
Proof.
  destruct (track_usage_issues_one (answering t) repr p m i o ts w)
    as (req & _ & Hreq).
  exists req. split; [exact Hreq | reflexivity].
Qed.

Lemma answering_received_by_get_usage t df dt w :
  receives (answering t) (get_usage (answering t) df dt) w t.
Proof.
  destruct (get_usage_issues_one (answering t) df dt w) as (req & _ & Hreq).
  exists req. split; [exact Hreq | reflexivity].
Qed.

(** What the two operations do with a response or a failure, once the
    transport is a mock. *)
Ltac mocked := unfold answering; run_call.

Lemma status_not (s code : Z) : s <> code -> (s =? code) = false.
Proof. apply Z.eqb_neq. Qed.

Lemma ok_2xx (r : Response) : 200 <= status_code r < 300 -> ok r = true.
Proof.
  intros Hr. unfold ok.
  replace (400 <=? status_code r) with false; [reflexivity|].
  symmetry. apply Z.leb_gt. lia.
Qed.

(** The subclass relation of the classes the handlers name. *)
Lemma timeout_is_request_exception (e : Exc.t) :
  Exc.isinstance e Exc.Timeout = true ->
  Exc.isinstance e Exc.RequestException = true.
Proof.
  unfold Exc.isinstance. now destruct (Exc.cls e).
Qed.

Lemma connection_error_is_request_exception (e : Exc.t) :
  Exc.isinstance e Exc.ConnectionError = true ->
  Exc.isinstance e Exc.RequestException = true.
Proof.
  unfold Exc.isinstance. now destruct (Exc.cls e).
Qed.

(** ** The operations on the responses of the documentation *)

(** A 2xx response with a JSON body: the decoded body is returned as it
    is. *)
Example track_usage_returns_the_body :
  let record := Py.PyDict [ ("id", Py.PyStr "x"); ("total_tokens", Py.PyInt 2000) ] in
  fst (track_usage (answering (Responds {| status_code := 201; body := Decodes record |}))
         example_repr "openai" "gpt-4" 1500 500 None example_world) =
    Return record.
Proof. reflexivity. Qed.

Example track_usage_404 :
  fst (track_usage (answering (Responds {| status_code := 404; body := Undecodable "" |}))
         example_repr "openai" "gpt-4" 1500 500 None example_world) =
    Raise (Exc.make Exc.UsageTrackerError "Project not found or access denied").
Proof. reflexivity. Qed.

Example get_usage_503 :
  fst (get_usage (answering (Responds {| status_code := 503; body := Undecodable "" |}))
         None None example_world) =
    Raise (Exc.make Exc.UsageTrackerError "API request failed with status 503").
Proof. reflexivity. Qed.

(** A connection that times out is both a [ConnectionError] and a
    [Timeout]; the [Timeout] clause comes first. *)
Example track_usage_connect_timeout :
  fst (track_usage (answering (Fails (Exc.make Exc.ConnectTimeout "timed out")))
         example_repr "openai" "gpt-4" 1500 500 None example_world) =
    Raise (Exc.make Exc.UsageTrackerError "Request timed out after 30 seconds").
Proof. reflexivity. Qed.

(** ** HTTP 422 on submit *)

(** C1 (as amended).  A [track_usage] call that receives an HTTP 422
    response for which [response.json()] returns a dictionary raises
    [ValidationError]: with the message "Validation failed: " followed
    by the value of the [error] key when the dictionary has one (the
    string itself when the value is a string), and by "Unknown error"
    when it has none.  When [response.json()] raises [JSONDecodeError]
    the call raises [UsageTrackerError] with the message "Request
    failed: " followed by the decoder's detail, and not
    [ValidationError]. *)
Theorem C1_validation_error_on_422 portal repr p m i o ts w r :
  receives portal (track_usage portal repr p m i o ts) w (Responds r) ->
  status_code r = 422 ->
  (forall d v,
     body r = Decodes (Py.PyDict d) -> Py.lookup d "error" = Some v ->
     fst (track_usage portal repr p m i o ts w) =
       Raise (Exc.make Exc.ValidationError ("Validation failed: " ++ format repr v)))
  /\ (forall d s,
     body r = Decodes (Py.PyDict d) -> Py.lookup d "error" = Some (Py.PyStr s) ->
     fst (track_usage portal repr p m i o ts w) =
       Raise (Exc.make Exc.ValidationError ("Validation failed: " ++ s)))
  /\ (forall d,
     body r = Decodes (Py.PyDict d) -> Py.lookup d "error" = None ->
     fst (track_usage portal repr p m i o ts w) =
       Raise (Exc.make Exc.ValidationError "Validation failed: Unknown error"))
  /\ (forall detail,
     body r = Undecodable detail ->
     fst (track_usage portal repr p m i o ts w) =
       Raise (Exc.make Exc.UsageTrackerError ("Request failed: " ++ detail))).
Proof.
  intros Hrecv Hstatus. rewrite (track_usage_mock _ _ _ _ _ _ _ _ _ Hrecv).
  assert (Hpresent : forall d v,
     body r = Decodes (Py.PyDict d) -> Py.lookup d "error" = Some v ->
     fst (track_usage (answering (Responds r)) repr p m i o ts w) =
       Raise (Exc.make Exc.ValidationError ("Validation failed: " ++ format repr v))).
  { intros d v Hbody Hfield. mocked. rewrite Hstatus, Hbody. simpl.
    unfold Py.get. now rewrite Hfield. }
  repeat split.
  - exact Hpresent.
  - intros d s Hbody Hfield. exact (Hpresent d _ Hbody Hfield).
  - intros d Hbody Hfield. mocked. rewrite Hstatus, Hbody. simpl.
    unfold Py.get. now rewrite Hfield.
  - intros detail Hbody. mocked. rewrite Hstatus, Hbody. reflexivity.
Qed.

(** The 422 body [{"error":"input_tokens must be >= 0"}] gives a
    [ValidationError] whose message ends with that text; an empty JSON
    object gives "Unknown error"; an empty body, which the decoder
    rejects, gives a [UsageTrackerError]. *)
Lemma C1_validation_error_on_422_witness :
  fst (track_usage (answering (Responds rejected_422)) example_repr
         "openai" "gpt-4" 1500 500 None example_world) =
    Raise (Exc.make Exc.ValidationError
             "Validation failed: input_tokens must be >= 0")
  /\ fst (track_usage (answering (Responds bare_422)) example_repr
         "openai" "gpt-4" 1500 500 None example_world) =
    Raise (Exc.make Exc.ValidationError "Validation failed: Unknown error")
  /\ fst (track_usage (answering (Responds garbled_422)) example_repr
         "openai" "gpt-4" 1500 500 None example_world) =
    Raise (Exc.make Exc.UsageTrackerError
             "Request failed: Expecting value: line 1 column 1 (char 0)").
Proof.
  split; [|split].
  - apply (proj1 (proj2 (C1_validation_error_on_422
             (answering (Responds rejected_422)) example_repr
             "openai" "gpt-4" 1500 500 None example_world rejected_422
             (answering_received_by_track_usage _ _ _ _ _ _ _ _) eq_refl))
           [("error", Py.PyStr "input_tokens must be >= 0")]
           "input_tokens must be >= 0" eq_refl eq_refl).
  - apply (proj1 (proj2 (proj2 (C1_validation_error_on_422
             (answering (Responds bare_422)) example_repr
             "openai" "gpt-4" 1500 500 None example_world bare_422
             (answering_received_by_track_usage _ _ _ _ _ _ _ _) eq_refl)))
           [] eq_refl eq_refl).
  - apply (proj2 (proj2 (proj2 (C1_validation_error_on_422
             (answering (Responds garbled_422)) example_repr
             "openai" "gpt-4" 1500 500 None example_world garbled_422
             (answering_received_by_track_usage _ _ _ _ _ _ _ _) eq_refl)))
           "Expecting value: line 1 column 1 (char 0)" eq_refl).
Defined.

(** C1 as stated fails: a 422 response with an empty body, which is
    not parseable as JSON, does not give a [ValidationError] built from
    "Unknown error"; the decoding error is caught by the
    [except RequestException] clause. *)
Lemma C1_garbled_422_is_not_a_validation_error :
  status_code garbled_422 = 422
  /\ fst (track_usage (answering (Responds garbled_422)) example_repr
            "openai" "gpt-4" 1500 500 None example_world) =
     Raise (Exc.make Exc.UsageTrackerError
              "Request failed: Expecting value: line 1 column 1 (char 0)")
  /\ fst (track_usage (answering (Responds garbled_422)) example_repr
            "openai" "gpt-4" 1500 500 None example_world) <>
     Raise (Exc.make Exc.ValidationError "Validation failed: Unknown error")
  /\ caught_by Exc.ValidationError
       (fst (track_usage (answering (Responds garbled_422)) example_repr
               "openai" "gpt-4" 1500 500 None example_world)) = false.
Proof.
  repeat split; try reflexivity. discriminate.
Qed.

(** ** Failures of the transport *)

(** C2 (as amended).  In [track_usage] a timeout of the transport
    raises [UsageTrackerError] "Request timed out after {timeout}
    seconds", and a connection failure that is not a timeout raises
    [UsageTrackerError] "Failed to connect to {portal_url}".  In
    [get_usage], which has one handler, a timeout or a connection
    failure of the transport raises [UsageTrackerError] "Request
    failed: {detail}". *)
Theorem C2_transport_failures portal repr p m i o ts df dt w e :
  (receives portal (track_usage portal repr p m i o ts) w (Fails e) ->
   Exc.isinstance e Exc.Timeout = true ->
   fst (track_usage portal repr p m i o ts w) =
     Raise (Exc.make Exc.UsageTrackerError
              ("Request timed out after " ++ Py.str_of_int (timeout (self w))
               ++ " seconds")))
  /\ (receives portal (track_usage portal repr p m i o ts) w (Fails e) ->
      Exc.isinstance e Exc.Timeout = false ->
      Exc.isinstance e Exc.ConnectionError = true ->
      fst (track_usage portal repr p m i o ts w) =
        Raise (Exc.make Exc.UsageTrackerError
                 ("Failed to connect to " ++ portal_url (self w))))
  /\ (receives portal (get_usage portal df dt) w (Fails e) ->
      Exc.isinstance e Exc.Timeout = true
      \/ Exc.isinstance e Exc.ConnectionError = true ->
      fst (get_usage portal df dt w) =
        Raise (Exc.make Exc.UsageTrackerError
                 ("Request failed: " ++ Exc.message e))).
Proof.
  split; [|split].
  - intros Hrecv Htimeout. rewrite (track_usage_mock _ _ _ _ _ _ _ _ _ Hrecv).
    mocked. now rewrite Htimeout.
  - intros Hrecv Htimeout Hconn.
    rewrite (track_usage_mock _ _ _ _ _ _ _ _ _ Hrecv).
    mocked. now rewrite Htimeout, Hconn.
  - intros Hrecv Hkind. rewrite (get_usage_mock _ _ _ _ _ Hrecv).
    assert (Hreq : Exc.isinstance e Exc.RequestException = true).
    { destruct Hkind as [H|H];
        [now apply timeout_is_request_exception
        | now apply connection_error_is_request_exception]. }
    mocked. now rewrite Hreq.
Qed.

(** With the default timeout of 30 seconds and the portal of the
    documentation. *)
Lemma C2_transport_failures_witness :
  fst (track_usage (answering (Fails read_timeout)) example_repr
         "openai" "gpt-4" 1500 500 None example_world) =
    Raise (Exc.make Exc.UsageTrackerError "Request timed out after 30 seconds")
  /\ fst (track_usage (answering (Fails refused)) example_repr
         "openai" "gpt-4" 1500 500 None example_world) =
    Raise (Exc.make Exc.UsageTrackerError
             "Failed to connect to https://portal.example.com")
  /\ fst (get_usage (answering (Fails read_timeout)) None None example_world) =
    Raise (Exc.make Exc.UsageTrackerError
             "Request failed: Read timed out. (read timeout=30)").
Proof.
  split; [|split].
  - apply (proj1 (C2_transport_failures
             (answering (Fails read_timeout)) example_repr
             "openai" "gpt-4" 1500 500 None None None example_world read_timeout)
           (answering_received_by_track_usage _ _ _ _ _ _ _ _) eq_refl).
  - apply (proj1 (proj2 (C2_transport_failures
             (answering (Fails refused)) example_repr
             "openai" "gpt-4" 1500 500 None None None example_world refused))
           (answering_received_by_track_usage _ _ _ _ _ _ _ _) eq_refl eq_refl).
  - apply (proj2 (proj2 (C2_transport_failures
             (answering (Fails read_timeout)) example_repr
             "openai" "gpt-4" 1500 500 None None None example_world read_timeout))
           (answering_received_by_get_usage _ _ _ _) (or_introl eq_refl)).
Defined.

(** C2 as stated fails for [get_usage]: a timeout of the transport does
    not give the message "Request timed out after 30s", nor does a
    refused connection give "Failed to connect to ...". *)
Lemma C2_get_usage_timeout_message :
  Exc.isinstance read_timeout Exc.Timeout = true
  /\ fst (get_usage (answering (Fails read_timeout)) None None example_world) =
     Raise (Exc.make Exc.UsageTrackerError
              "Request failed: Read timed out. (read timeout=30)")
  /\ fst (get_usage (answering (Fails read_timeout)) None None example_world) <>
     Raise (Exc.make Exc.UsageTrackerError "Request timed out after 30s")
  /\ Exc.isinstance refused Exc.ConnectionError = true
  /\ fst (get_usage (answering (Fails refused)) None None example_world) <>
     Raise (Exc.make Exc.UsageTrackerError
              "Failed to connect to https://portal.example.com").
Proof.
  repeat split; try reflexivity; discriminate.
Qed.

(** ** Construction *)

(** C3 (as amended).  Construction succeeds exactly when [portal_url]
    is not empty once its trailing slashes are stripped and
    [auth_token] and [project_id] are not empty; it then gives the
    instance with these attributes.  In every other case, and so
    whenever one of the three is empty, it raises [ValueError] and the
    caller gets no object. *)
Theorem C3_construction (pu a pid : string) (t : Z) :
  (Py.rstrip "/" pu <> "" -> a <> "" -> pid <> "" ->
   new pu a pid t =
     Return {| portal_url := Py.rstrip "/" pu; auth_token := a;
               project_id := pid; timeout := t |})
  /\ (pu = "" \/ a = "" \/ pid = "" ->
      exists msg, new pu a pid t = Raise (Exc.make Exc.ValueError msg))
  /\ (forall obj, new pu a pid t = Return obj ->
      Py.rstrip "/" pu <> "" /\ a <> "" /\ pid <> "")
  /\ (forall e, new pu a pid t = Raise e -> Exc.cls e = Exc.ValueError).
Proof.
  rewrite new_cases.
  destruct (Py.truthy (Py.rstrip "/" pu)) eqn:Hpu;
    destruct (Py.truthy a) eqn:Ha; destruct (Py.truthy pid) eqn:Hpid; simpl;
    try apply truthy_true in Hpu; try apply truthy_false in Hpu;
    try apply truthy_true in Ha; try apply truthy_false in Ha;
    try apply truthy_true in Hpid; try apply truthy_false in Hpid;
    (split; [|split; [|split]]);
    try (intros ? ? ?; congruence);
    try (intros _; eexists; reflexivity);
    try (intros ? [= <-]; reflexivity);
    try (intros ? [=]; tauto);
    try discriminate.
  intros [-> | [-> | ->]]; simpl in *; congruence.
Qed.

Lemma C3_construction_witness :
  new "https://portal.example.com/" "your-clerk-token" "your-project-id" 30 =
    Return {| portal_url := "https://portal.example.com";
              auth_token := "your-clerk-token";
              project_id := "your-project-id"; timeout := 30 |}
  /\ (exists msg,
        new "https://portal.example.com" "" "your-project-id" 30 =
          Raise (Exc.make Exc.ValueError msg)).
Proof.
  split.
  - apply (proj1 (C3_construction "https://portal.example.com/"
                    "your-clerk-token" "your-project-id" 30));
      simpl; discriminate.
  - apply (proj1 (proj2 (C3_construction "https://portal.example.com"
                    "" "your-project-id" 30))).
    right. left. reflexivity.
Defined.

(** C3 as stated fails: the three strings below are not empty, and
    construction raises. *)
Lemma C3_slash_only_portal_url_is_refused :
  "/" <> "" /\ "your-clerk-token" <> "" /\ "your-project-id" <> ""
  /\ new "/" "your-clerk-token" "your-project-id" 30 =
     Raise (Exc.make Exc.ValueError "portal_url is required").
Proof.
  repeat split; try discriminate.
Qed.

(** C9.  A [portal_url] made of slashes only is refused as the empty
    string is, with the same exception. *)
Theorem C9_slashes_only_is_empty (pu a pid : string) (t : Z) :
  all_in "/" pu = true ->
  new pu a pid t = Raise (Exc.make Exc.ValueError "portal_url is required")
  /\ new pu a pid t = new "" a pid t.
Proof.
  intros Hslashes. rewrite !new_cases.
  rewrite (rstrip_all_slashes _ Hslashes). split; reflexivity.
Qed.

Lemma C9_slashes_only_is_empty_witness :
  new "///" "your-clerk-token" "your-project-id" 30 =
    Raise (Exc.make Exc.ValueError "portal_url is required")
  /\ new "///" "your-clerk-token" "your-project-id" 30 =
     new "" "your-clerk-token" "your-project-id" 30.
Proof.
  apply (C9_slashes_only_is_empty "///" "your-clerk-token" "your-project-id" 30).
  reflexivity.
Defined.

(** ** The address of the requests *)

(** C4.  An instance that construction gives stores [portal_url]
    without its trailing slashes: the stored string does not end with a
    slash and differs from the argument by a run of slashes at the end.
    Each operation issues one request, to the stored string followed by
    "/api/usage". *)
Theorem C4_base_url_normalised portal repr pu a pid t obj p m i o ts df dt w :
  new pu a pid t = Return obj ->
  self w = obj ->
  portal_url obj = Py.rstrip "/" pu
  /\ ~ endswith (portal_url obj) "/"
  /\ (exists n, pu = portal_url obj ++ slashes n)
  /\ (exists req,
        issued (snd (track_usage portal repr p m i o ts w)) = (issued w ++ [req])%list
        /\ method req = POST
        /\ url req = Py.rstrip "/" pu ++ "/api/usage")
  /\ (exists req,
        issued (snd (get_usage portal df dt w)) = (issued w ++ [req])%list
        /\ method req = GET
        /\ url req = Py.rstrip "/" pu ++ "/api/usage").
Proof.
  intros Hnew Hself.
  assert (Hurl : portal_url obj = Py.rstrip "/" pu).
  { rewrite new_cases in Hnew.
    destruct (Py.truthy (Py.rstrip "/" pu)); simpl in Hnew; [|discriminate].
    destruct (Py.truthy a); simpl in Hnew; [|discriminate].
    destruct (Py.truthy pid); simpl in Hnew; [|discriminate].
    injection Hnew as <-. reflexivity. }
  split; [exact Hurl|]. rewrite Hurl.
  split; [apply rstrip_no_trailing_slash|].
  split; [apply rstrip_decompose|].
  rewrite track_usage_world, get_usage_world. simpl.
  rewrite Hself, Hurl.
  split; eexists; (split; [reflexivity | split; reflexivity]).
Qed.

(** Constructing with "https://portal.example.com/" gives requests to
    "https://portal.example.com/api/usage". *)
Lemma C4_base_url_normalised_witness :
  exists req,
    issued (snd (track_usage (answering (Responds unauthorized_401)) example_repr
                   "openai" "gpt-4" 1500 500 None example_world)) = [req]
    /\ method req = POST
    /\ url req = "https://portal.example.com/api/usage".
Proof.
  exact (proj1 (proj2 (proj2 (proj2 (C4_base_url_normalised
           (answering (Responds unauthorized_401)) example_repr
           "https://portal.example.com/" "your-clerk-token" "your-project-id"
           default_timeout (self example_world)
           "openai" "gpt-4" 1500 500 None None None example_world
           eq_refl eq_refl))))).
Defined.

(** ** What the requests carry *)

(** C5.  A [track_usage] call issues one POST request whose JSON body
    has the keys [project_id] (the attribute of the instance),
    [provider], [model], [input_tokens] and [output_tokens] with the
    values of the arguments, followed by [request_timestamp] only when
    a timestamp that is not empty was passed; without a timestamp the
    key is absent, and no key carries [None]. *)
Theorem C5_request_body portal repr p m i o ts w :
  exists req payload,
    issued (snd (track_usage portal repr p m i o ts w)) = (issued w ++ [req])%list
    /\ method req = POST
    /\ json req = Some payload
    /\ Py.keys payload =
         (["project_id"; "provider"; "model"; "input_tokens"; "output_tokens"]
          ++ (if Py.truthy_opt ts then ["request_timestamp"] else []))%list
    /\ Py.lookup payload "project_id" = Some (Py.PyStr (project_id (self w)))
    /\ Py.lookup payload "provider" = Some (Py.PyStr p)
    /\ Py.lookup payload "model" = Some (Py.PyStr m)
    /\ Py.lookup payload "input_tokens" = Some (Py.PyInt i)
    /\ Py.lookup payload "output_tokens" = Some (Py.PyInt o)
    /\ Py.lookup payload "request_timestamp" =
         match ts with
         | Some s => if Py.truthy s then Some (Py.PyStr s) else None
         | None => None
         end
    /\ Forall (fun item => snd item <> Py.PyNone) payload.
Proof.
  rewrite track_usage_world. simpl.
  eexists. eexists. split; [reflexivity|].
  split; [reflexivity|]. split; [reflexivity|].
  destruct ts as [s|]; [destruct (Py.truthy s) eqn:Hs|]; simpl; rewrite ?Hs;
    repeat split; repeat constructor; discriminate.
Qed.

(** C6 (as amended).  A [get_usage] call issues one GET request whose
    query parameters are [project_id], always, then [date_from] and
    [date_to], each only when it was passed and is not the empty
    string.  With two dates that are not empty the parameters are
    exactly the three. *)
Theorem C6_query_parameters portal df dt w :
  exists req query,
    issued (snd (get_usage portal df dt w)) = (issued w ++ [req])%list
    /\ method req = GET
    /\ params req = Some query
    /\ Py.keys query =
         ("project_id"
          :: (if Py.truthy_opt df then ["date_from"] else [])
          ++ (if Py.truthy_opt dt then ["date_to"] else []))%list
    /\ Py.lookup query "project_id" = Some (project_id (self w))
    /\ Py.lookup query "date_from" = (if Py.truthy_opt df then df else None)
    /\ Py.lookup query "date_to" = (if Py.truthy_opt dt then dt else None)
    /\ (forall a b, df = Some a -> dt = Some b -> a <> "" -> b <> "" ->
        query = [ ("project_id", project_id (self w));
                  ("date_from", a); ("date_to", b) ]).
Proof.
  rewrite get_usage_world. simpl.
  eexists. eexists. split; [reflexivity|].
  split; [reflexivity|]. split; [reflexivity|].
  destruct df as [a|]; [destruct (Py.truthy a) eqn:Ha|];
    (destruct dt as [b|]; [destruct (Py.truthy b) eqn:Hb|]);
    simpl; rewrite ?Ha, ?Hb; repeat split;
    try (intros a' b' [= <-] [= <-] Ha' Hb');
    try (intros a' b' Hdf Hdt; discriminate);
    try reflexivity;
    try (apply truthy_false in Ha; contradiction);
    try (apply truthy_false in Hb; contradiction).
Qed.

(** The call [get_usage(date_from="2024-01-01", date_to="2024-01-31")]. *)
Lemma C6_query_parameters_witness :
  exists req query,
    issued (snd (get_usage (answering (Responds unauthorized_401))
                   (Some "2024-01-01") (Some "2024-01-31") example_world)) = [req]
    /\ params req = Some query
    /\ query = [ ("project_id", "your-project-id");
                 ("date_from", "2024-01-01"); ("date_to", "2024-01-31") ].
Proof.
  destruct (C6_query_parameters (answering (Responds unauthorized_401))
              (Some "2024-01-01") (Some "2024-01-31") example_world)
    as (req & query & Hissued & _ & Hparams & _ & _ & _ & _ & Hexact).
  exists req, query. split; [exact Hissued|]. split; [exact Hparams|].
  apply (Hexact "2024-01-01" "2024-01-31" eq_refl eq_refl); discriminate.
Defined.

(** C6 as stated fails: with both dates passed and [date_from] the
    empty string, the request has no [date_from] parameter. *)
Lemma C6_empty_date_from_is_omitted :
  exists req,
    issued (snd (get_usage (answering (Responds unauthorized_401))
                   (Some "") (Some "2024-01-31") example_world)) = [req]
    /\ params req = Some [ ("project_id", "your-project-id");
                           ("date_to", "2024-01-31") ]
    /\ option_map Py.keys (params req) <>
       Some ["project_id"; "date_from"; "date_to"].
Proof.
  eexists. split; [reflexivity|]. split; [reflexivity|]. discriminate.
Qed.

(** ** HTTP 401 *)

(** C7.  A call of either operation that receives an HTTP 401 response
    raises [AuthenticationError], a proper subclass of
    [UsageTrackerError]: the exception is not of class
    [UsageTrackerError] itself, and both [except AuthenticationError]
    and [except UsageTrackerError] catch it. *)
Theorem C7_unauthorized portal repr p m i o ts df dt w r :
  status_code r = 401 ->
  (receives portal (track_usage portal repr p m i o ts) w (Responds r) ->
   fst (track_usage portal repr p m i o ts w) =
     Raise (Exc.make Exc.AuthenticationError
              "Authentication failed. Check your auth token.")
   /\ (forall msg, fst (track_usage portal repr p m i o ts w) <>
                   Raise (Exc.make Exc.UsageTrackerError msg))
   /\ caught_by Exc.AuthenticationError
        (fst (track_usage portal repr p m i o ts w)) = true
   /\ caught_by Exc.UsageTrackerError
        (fst (track_usage portal repr p m i o ts w)) = true)
  /\ (receives portal (get_usage portal df dt) w (Responds r) ->
      fst (get_usage portal df dt w) =
        Raise (Exc.make Exc.AuthenticationError
                 "Authentication failed. Check your auth token.")
      /\ (forall msg, fst (get_usage portal df dt w) <>
                      Raise (Exc.make Exc.UsageTrackerError msg))
      /\ caught_by Exc.AuthenticationError (fst (get_usage portal df dt w)) = true
      /\ caught_by Exc.UsageTrackerError (fst (get_usage portal df dt w)) = true)
  /\ Exc.issubclass Exc.AuthenticationError Exc.UsageTrackerError = true
  /\ Exc.issubclass Exc.UsageTrackerError Exc.AuthenticationError = false.
Proof.
  intros Hstatus. split; [|split; [|split; reflexivity]].
  - intros Hrecv. rewrite (track_usage_mock _ _ _ _ _ _ _ _ _ Hrecv).
    assert (Hraise : fst (track_usage (answering (Responds r)) repr p m i o ts w) =
      Raise (Exc.make Exc.AuthenticationError
               "Authentication failed. Check your auth token.")).
    { mocked. now rewrite Hstatus. }
    rewrite Hraise. repeat split; try reflexivity. discriminate.
  - intros Hrecv. rewrite (get_usage_mock _ _ _ _ _ Hrecv).
    assert (Hraise : fst (get_usage (answering (Responds r)) df dt w) =
      Raise (Exc.make Exc.AuthenticationError
               "Authentication failed. Check your auth token.")).
    { mocked. now rewrite Hstatus. }
    rewrite Hraise. repeat split; try reflexivity. discriminate.
Qed.

Lemma C7_unauthorized_witness :
  fst (track_usage (answering (Responds unauthorized_401)) example_repr
         "openai" "gpt-4" 1500 500 None example_world) =
    Raise (Exc.make Exc.AuthenticationError
             "Authentication failed. Check your auth token.")
  /\ fst (get_usage (answering (Responds unauthorized_401)) None None
            example_world) =
     Raise (Exc.make Exc.AuthenticationError
              "Authentication failed. Check your auth token.").
Proof.
  split.
  - apply (proj1 (C7_unauthorized (answering (Responds unauthorized_401))
             example_repr "openai" "gpt-4" 1500 500 None None None
             example_world unauthorized_401 eq_refl)
           (answering_received_by_track_usage _ _ _ _ _ _ _ _)).
  - apply (proj1 (proj2 (C7_unauthorized (answering (Responds unauthorized_401))
             example_repr "openai" "gpt-4" 1500 500 None None None
             example_world unauthorized_401 eq_refl))
           (answering_received_by_get_usage _ _ _ _)).
Defined.

(** ** The instance after a call *)

(** C8.  Whatever the portal does, and whether the call returns or
    raises, the instance has after [track_usage] and after [get_usage]
    the [portal_url], [auth_token], [project_id] and [timeout] it had
    before. *)
Theorem C8_instance_not_mutated portal repr p m i o ts df dt w :
  (portal_url (self (snd (track_usage portal repr p m i o ts w))) = portal_url (self w)
   /\ auth_token (self (snd (track_usage portal repr p m i o ts w))) = auth_token (self w)
   /\ project_id (self (snd (track_usage portal repr p m i o ts w))) = project_id (self w)
   /\ timeout (self (snd (track_usage portal repr p m i o ts w))) = timeout (self w))
  /\ (portal_url (self (snd (get_usage portal df dt w))) = portal_url (self w)
      /\ auth_token (self (snd (get_usage portal df dt w))) = auth_token (self w)
      /\ project_id (self (snd (get_usage portal df dt w))) = project_id (self w)
      /\ timeout (self (snd (get_usage portal df dt w))) = timeout (self w)).
Proof.
  rewrite (keeps_self_track_usage portal repr p m i o ts w).
  rewrite (keeps_self_get_usage portal df dt w).
  repeat split.
Qed.

(** ** A success status with a body the decoder rejects *)

(** C10 (as amended).  A call of either operation that receives a 2xx
    response for which [response.json()] raises [JSONDecodeError]
    raises [UsageTrackerError] with the message "Request failed: "
    followed by the decoder's detail: it returns nothing, and the
    exception is not a [ValidationError]. *)
Theorem C10_garbled_success_body portal repr p m i o ts df dt w r detail :
  200 <= status_code r < 300 ->
  body r = Undecodable detail ->
  (receives portal (track_usage portal repr p m i o ts) w (Responds r) ->
   fst (track_usage portal repr p m i o ts w) =
     Raise (Exc.make Exc.UsageTrackerError ("Request failed: " ++ detail))
   /\ (forall v, fst (track_usage portal repr p m i o ts w) <> Return v)
   /\ caught_by Exc.ValidationError
        (fst (track_usage portal repr p m i o ts w)) = false)
  /\ (receives portal (get_usage portal df dt) w (Responds r) ->
      fst (get_usage portal df dt w) =
        Raise (Exc.make Exc.UsageTrackerError ("Request failed: " ++ detail))
      /\ (forall v, fst (get_usage portal df dt w) <> Return v)
      /\ caught_by Exc.ValidationError (fst (get_usage portal df dt w)) = false).
Proof.
  intros Hstatus Hbody.
  assert (H401 : (status_code r =? 401) = false) by (apply status_not; lia).
  assert (H422 : (status_code r =? 422) = false) by (apply status_not; lia).
  assert (H404 : (status_code r =? 404) = false) by (apply status_not; lia).
  pose proof (ok_2xx r Hstatus) as Hok.
  split.
  - intros Hrecv. rewrite (track_usage_mock _ _ _ _ _ _ _ _ _ Hrecv).
    assert (Hraise : fst (track_usage (answering (Responds r)) repr p m i o ts w) =
      Raise (Exc.make Exc.UsageTrackerError ("Request failed: " ++ detail))).
    { mocked. now rewrite H401, H422, H404, Hok, Hbody. }
    rewrite Hraise. repeat split; try reflexivity. discriminate.
  - intros Hrecv. rewrite (get_usage_mock _ _ _ _ _ Hrecv).
    assert (Hraise : fst (get_usage (answering (Responds r)) df dt w) =
      Raise (Exc.make Exc.UsageTrackerError ("Request failed: " ++ detail))).
    { mocked. now rewrite H401, Hok, Hbody. }
    rewrite Hraise. repeat split; try reflexivity. discriminate.
Qed.

Lemma C10_garbled_success_body_witness :
  fst (track_usage (answering (Responds garbled_200)) example_repr
         "openai" "gpt-4" 1500 500 None example_world) =
    Raise (Exc.make Exc.UsageTrackerError
             "Request failed: Expecting value: line 1 column 1 (char 0)")
  /\ fst (get_usage (answering (Responds garbled_200)) None None example_world) =
     Raise (Exc.make Exc.UsageTrackerError
              "Request failed: Expecting value: line 1 column 1 (char 0)").
Proof.
  assert (Hstatus : 200 <= status_code garbled_200 < 300) by (simpl; lia).
  split.
  - apply (proj1 (C10_garbled_success_body (answering (Responds garbled_200))
             example_repr "openai" "gpt-4" 1500 500 None None None
             example_world garbled_200 _ Hstatus eq_refl)
           (answering_received_by_track_usage _ _ _ _ _ _ _ _)).
  - apply (proj2 (C10_garbled_success_body (answering (Responds garbled_200))
             example_repr "openai" "gpt-4" 1500 500 None None None
             example_world garbled_200 _ Hstatus eq_refl)
           (answering_received_by_get_usage _ _ _ _)).
Defined.

(** C10 as stated fails, on two 2xx responses whose bodies are not
    JSON.  The body [{"cost_usd":NaN}] is accepted by the decoder, and
    both operations return the decoded value.  The body of a hundred
    thousand opening brackets makes the decoder raise [RecursionError],
    which no clause catches: both operations raise it, and it is not a
    [UsageTrackerError]. *)
Lemma C10_not_json_returned_or_recursion_error :
  200 <= status_code nan_200 < 300
  /\ is_nan nan = true
  /\ fst (track_usage (answering (Responds nan_200)) example_repr
            "openai" "gpt-4" 1500 500 None example_world) =
     Return (Py.PyDict [("cost_usd", Py.PyFloat nan)])
  /\ fst (get_usage (answering (Responds nan_200)) None None example_world) =
     Return (Py.PyDict [("cost_usd", Py.PyFloat nan)])
  /\ 200 <= status_code deep_200 < 300
  /\ fst (track_usage (answering (Responds deep_200)) example_repr
            "openai" "gpt-4" 1500 500 None example_world) =
     Raise (Exc.make Exc.RecursionError
              "maximum recursion depth exceeded while decoding a JSON array from a unicode string")
  /\ caught_by Exc.UsageTrackerError
       (fst (track_usage (answering (Responds deep_200)) example_repr
               "openai" "gpt-4" 1500 500 None example_world)) = false
  /\ fst (get_usage (answering (Responds deep_200)) None None example_world) =
     Raise (Exc.make Exc.RecursionError
              "maximum recursion depth exceeded while decoding a JSON array from a unicode string")
  /\ caught_by Exc.UsageTrackerError
       (fst (get_usage (answering (Responds deep_200)) None None
               example_world)) = false.
Proof.
  repeat split; try reflexivity; simpl; lia.
Qed.

(** * Further properties of the client *)

(** ** Statuses *)

Lemma ok_outside_errors (r : Response) :
  status_code r < 400 \/ 600 <= status_code r -> ok r = true.
Proof.
  intros Hr. unfold ok. apply negb_true_iff, andb_false_iff.
  destruct Hr; [left; apply Z.leb_gt | right; apply Z.ltb_ge]; lia.
Qed.

Lemma ok_error_status (r : Response) :
  400 <= status_code r < 600 -> ok r = false.
Proof.
  intros Hr. unfold ok. apply negb_false_iff, andb_true_iff.
  split; [apply Z.leb_le | apply Z.ltb_lt]; lia.
Qed.

(** X1.  Both operations take every status outside 400..599 for a
    success, not only the 2xx: when [response.json()] returns a value
    they return that value as it is. *)
Theorem X1_success_returns_the_body portal repr p m i o ts df dt w r v :
  status_code r < 400 \/ 600 <= status_code r ->
  body r = Decodes v ->
  (receives portal (track_usage portal repr p m i o ts) w (Responds r) ->
   fst (track_usage portal repr p m i o ts w) = Return v)
  /\ (receives portal (get_usage portal df dt) w (Responds r) ->
      fst (get_usage portal df dt w) = Return v).
Proof.
  intros Hstatus Hbody.
  assert (H401 : (status_code r =? 401) = false) by (apply status_not; lia).
  assert (H422 : (status_code r =? 422) = false) by (apply status_not; lia).
  assert (H404 : (status_code r =? 404) = false) by (apply status_not; lia).
  pose proof (ok_outside_errors r Hstatus) as Hok.
  split; intros Hrecv.
  - rewrite (track_usage_mock _ _ _ _ _ _ _ _ _ Hrecv).
    mocked. now rewrite H401, H422, H404, Hok, Hbody.
  - rewrite (get_usage_mock _ _ _ _ _ Hrecv).
    mocked. now rewrite H401, Hok, Hbody.
Qed.

Lemma X1_success_returns_the_body_witness :
  fst (track_usage (answering (Responds redirect_302)) example_repr
         "openai" "gpt-4" 1500 500 None example_world) =
    Return (Py.PyDict [("count", Py.PyInt 0)])
  /\ fst (get_usage (answering (Responds redirect_302)) None None example_world) =
     Return (Py.PyDict [("count", Py.PyInt 0)]).
Proof.
  assert (Hstatus : status_code redirect_302 < 400 \/ 600 <= status_code redirect_302)
    by (left; simpl; lia).
  split.
  - apply (proj1 (X1_success_returns_the_body (answering (Responds redirect_302))
             example_repr "openai" "gpt-4" 1500 500 None None None
             example_world redirect_302 _ Hstatus eq_refl)
           (answering_received_by_track_usage _ _ _ _ _ _ _ _)).
  - apply (proj2 (X1_success_returns_the_body (answering (Responds redirect_302))
             example_repr "openai" "gpt-4" 1500 500 None None None
             example_world redirect_302 _ Hstatus eq_refl)
           (answering_received_by_get_usage _ _ _ _)).
Defined.

(** X2.  On a 404 response [track_usage] raises [UsageTrackerError]
    "Project not found or access denied" without reading the body;
    [get_usage] has no case for 404 and reports the status. *)
Theorem X2_not_found portal repr p m i o ts df dt w r :
  status_code r = 404 ->
  (receives portal (track_usage portal repr p m i o ts) w (Responds r) ->
   fst (track_usage portal repr p m i o ts w) =
     Raise (Exc.make Exc.UsageTrackerError "Project not found or access denied"))
  /\ (receives portal (get_usage portal df dt) w (Responds r) ->
      fst (get_usage portal df dt w) =
        Raise (Exc.make Exc.UsageTrackerError "API request failed with status 404")).
Proof.
  intros Hstatus. split; intros Hrecv.
  - rewrite (track_usage_mock _ _ _ _ _ _ _ _ _ Hrecv).
    mocked. now rewrite Hstatus.
  - rewrite (get_usage_mock _ _ _ _ _ Hrecv).
    mocked. unfold ok. now rewrite Hstatus.
Qed.

Lemma X2_not_found_witness :
  fst (track_usage (answering (Responds not_found_404)) example_repr
         "openai" "gpt-4" 1500 500 None example_world) =
    Raise (Exc.make Exc.UsageTrackerError "Project not found or access denied")
  /\ fst (get_usage (answering (Responds not_found_404)) None None example_world) =
     Raise (Exc.make Exc.UsageTrackerError "API request failed with status 404").
Proof.
  split.
  - apply (proj1 (X2_not_found (answering (Responds not_found_404))
             example_repr "openai" "gpt-4" 1500 500 None None None
             example_world not_found_404 eq_refl)
           (answering_received_by_track_usage _ _ _ _ _ _ _ _)).
  - apply (proj2 (X2_not_found (answering (Responds not_found_404))
             example_repr "openai" "gpt-4" 1500 500 None None None
             example_world not_found_404 eq_refl)
           (answering_received_by_get_usage _ _ _ _)).
Defined.

(** X3.  Every other 4xx or 5xx status gives [UsageTrackerError] "API
    request failed with status {code}", whatever the body: in
    [track_usage] for the codes other than 401, 422 and 404, in
    [get_usage] for the codes other than 401, so also for 422. *)
Theorem X3_other_error_statuses portal repr p m i o ts df dt w r :
  400 <= status_code r < 600 ->
  status_code r <> 401 ->
  (receives portal (track_usage portal repr p m i o ts) w (Responds r) ->
   status_code r <> 422 -> status_code r <> 404 ->
   fst (track_usage portal repr p m i o ts w) =
     Raise (Exc.make Exc.UsageTrackerError
              ("API request failed with status " ++ Py.str_of_int (status_code r))))
  /\ (receives portal (get_usage portal df dt) w (Responds r) ->
      fst (get_usage portal df dt w) =
        Raise (Exc.make Exc.UsageTrackerError
                 ("API request failed with status " ++ Py.str_of_int (status_code r)))).
Proof.
  intros Hstatus H401. apply status_not in H401.
  pose proof (ok_error_status r Hstatus) as Hok.
  split.
  - intros Hrecv H422 H404. apply status_not in H422, H404.
    rewrite (track_usage_mock _ _ _ _ _ _ _ _ _ Hrecv).
    mocked. now rewrite H401, H422, H404, Hok.
  - intros Hrecv. rewrite (get_usage_mock _ _ _ _ _ Hrecv).
    mocked. now rewrite H401, Hok.
Qed.

Lemma X3_other_error_statuses_witness :
  fst (track_usage (answering (Responds unavailable_503)) example_repr
         "openai" "gpt-4" 1500 500 None example_world) =
    Raise (Exc.make Exc.UsageTrackerError "API request failed with status 503")
  /\ fst (get_usage (answering (Responds rejected_422)) None None example_world) =
     Raise (Exc.make Exc.UsageTrackerError "API request failed with status 422").
Proof.
  assert (H503 : 400 <= status_code unavailable_503 < 600) by (simpl; lia).
  assert (H422 : 400 <= status_code rejected_422 < 600) by (simpl; lia).
  split.
  - apply (proj1 (X3_other_error_statuses (answering (Responds unavailable_503))
             example_repr "openai" "gpt-4" 1500 500 None None None
             example_world unavailable_503 H503 ltac:(discriminate))
           (answering_received_by_track_usage _ _ _ _ _ _ _ _));
      discriminate.
  - apply (proj2 (X3_other_error_statuses (answering (Responds rejected_422))
             example_repr "openai" "gpt-4" 1500 500 None None None
             example_world rejected_422 H422 ltac:(discriminate))
           (answering_received_by_get_usage _ _ _ _)).
Defined.

(** X4.  On a 422 response for which [response.json()] returns a
    value that is not a dictionary (a list, a string, a number, a
    boolean or [None]), [track_usage] raises [AttributeError], which is
    not a [UsageTrackerError]: [except UsageTrackerError] does not
    catch it. *)
Theorem X4_422_body_not_an_object portal repr p m i o ts w r v :
  receives portal (track_usage portal repr p m i o ts) w (Responds r) ->
  status_code r = 422 ->
  body r = Decodes v ->
  (forall d, v <> Py.PyDict d) ->
  fst (track_usage portal repr p m i o ts w) =
    Raise (Exc.make Exc.AttributeError
             ("'" ++ Py.type_name v ++ "' object has no attribute 'get'"))
  /\ caught_by Exc.UsageTrackerError
       (fst (track_usage portal repr p m i o ts w)) = false.
Proof.
  intros Hrecv Hstatus Hbody Hshape.
  rewrite (track_usage_mock _ _ _ _ _ _ _ _ _ Hrecv).
  assert (Hraise : fst (track_usage (answering (Responds r)) repr p m i o ts w) =
    Raise (Exc.make Exc.AttributeError
             ("'" ++ Py.type_name v ++ "' object has no attribute 'get'"))).
  { mocked. rewrite Hstatus, Hbody. simpl.
    destruct v; try reflexivity. now destruct (Hshape d). }
  rewrite Hraise. split; reflexivity.
Qed.

Lemma X4_422_body_not_an_object_witness :
  fst (track_usage (answering (Responds list_422)) example_repr
         "openai" "gpt-4" 1500 500 None example_world) =
    Raise (Exc.make Exc.AttributeError "'list' object has no attribute 'get'").
Proof.
  apply (X4_422_body_not_an_object (answering (Responds list_422)) example_repr
           "openai" "gpt-4" 1500 500 None example_world list_422
           (Py.PyList [Py.PyStr "bad"])
           (answering_received_by_track_usage _ _ _ _ _ _ _ _) eq_refl eq_refl).
  discriminate.
Defined.

(** ** What the operations can raise *)

Lemma not_request_exception (e : Exc.t) :
  Exc.isinstance e Exc.RequestException = false ->
  Exc.isinstance e Exc.Timeout = false
  /\ Exc.isinstance e Exc.ConnectionError = false.
Proof.
  intros Hforeign. split.
  - destruct (Exc.isinstance e Exc.Timeout) eqn:H; [|reflexivity].
    apply timeout_is_request_exception in H. congruence.
  - destruct (Exc.isinstance e Exc.ConnectionError) eqn:H; [|reflexivity].
    apply connection_error_is_request_exception in H. congruence.
Qed.

(** X5.  [get_usage] has three kinds of outcome and no other: it
    returns a value; it raises an instance of [UsageTrackerError]; or
    it lets through, as it is, an exception that is not an exception of
    [requests], raised by the transport or by [response.json()]. *)
Theorem X5_get_usage_outcomes portal df dt w t :
  receives portal (get_usage portal df dt) w t ->
  (exists v, fst (get_usage portal df dt w) = Return v)
  \/ caught_by Exc.UsageTrackerError (fst (get_usage portal df dt w)) = true
  \/ (exists e,
        Exc.isinstance e Exc.RequestException = false
        /\ fst (get_usage portal df dt w) = Raise e
        /\ (t = Fails e \/ exists r, t = Responds r /\ body r = DecoderRaises e)).
Proof.
  intros Hrecv. rewrite (get_usage_mock _ _ _ _ _ Hrecv).
  destruct t as [r|e]; mocked.
  - destruct (status_code r =? 401); [right; left; reflexivity|].
    destruct (ok r); simpl; [|right; left; reflexivity].
    destruct (body r) as [v|detail|e] eqn:Hbody; simpl.
    + left. now exists v.
    + right. left. reflexivity.
    + destruct (Exc.isinstance e Exc.RequestException) eqn:Hkind.
      * right. left. reflexivity.
      * right. right. exists e. repeat split; trivial.
        right. exists r. now split.
  - destruct (Exc.isinstance e Exc.RequestException) eqn:Hkind.
    + right. left. reflexivity.
    + right. right. exists e. repeat split; trivial. now left.
Qed.

Lemma X5_get_usage_outcomes_witness :
  (exists v, fst (get_usage (answering (Responds huge_int_200)) None None
                    example_world) = Return v)
  \/ caught_by Exc.UsageTrackerError
       (fst (get_usage (answering (Responds huge_int_200)) None None
               example_world)) = true
  \/ (exists e,
        Exc.isinstance e Exc.RequestException = false
        /\ fst (get_usage (answering (Responds huge_int_200)) None None
                  example_world) = Raise e
        /\ (Responds huge_int_200 = Fails e
            \/ exists r, Responds huge_int_200 = Responds r
                         /\ body r = DecoderRaises e)).
Proof.
  exact (X5_get_usage_outcomes (answering (Responds huge_int_200)) None None
           example_world (Responds huge_int_200)
           (answering_received_by_get_usage _ _ _ _)).
Defined.

(** X6.  [track_usage] has these kinds of outcome and no other: it
    returns a value; it raises an instance of [UsageTrackerError]; on a
    422 response for which [response.json()] returns a value that is
    not a dictionary, it raises [AttributeError]; or it lets through,
    as it is, an exception that is not an exception of [requests],
    raised by the transport or by [response.json()]. *)
Theorem X6_track_usage_outcomes portal repr p m i o ts w t :
  receives portal (track_usage portal repr p m i o ts) w t ->
  (exists v, fst (track_usage portal repr p m i o ts w) = Return v)
  \/ caught_by Exc.UsageTrackerError
       (fst (track_usage portal repr p m i o ts w)) = true
  \/ (exists r v,
        t = Responds r /\ status_code r = 422 /\ body r = Decodes v
        /\ (forall d, v <> Py.PyDict d)
        /\ caught_by Exc.AttributeError
             (fst (track_usage portal repr p m i o ts w)) = true)
  \/ (exists e,
        Exc.isinstance e Exc.RequestException = false
        /\ fst (track_usage portal repr p m i o ts w) = Raise e
        /\ (t = Fails e \/ exists r, t = Responds r /\ body r = DecoderRaises e)).
Proof.
  intros Hrecv. rewrite (track_usage_mock _ _ _ _ _ _ _ _ _ Hrecv).
  destruct t as [r|e]; mocked.
  - destruct (status_code r =? 401); [right; left; reflexivity|].
    destruct (status_code r =? 422) eqn:H422.
    + apply Z.eqb_eq in H422.
      destruct (body r) as [v|detail|e] eqn:Hbody; simpl.
      * destruct v; simpl;
          try (right; right; left; exists r; eexists;
               repeat split; [exact H422 | exact Hbody | discriminate]).
        right. left. reflexivity.
      * right. left. reflexivity.
      * destruct (Exc.isinstance e Exc.Timeout); [right; left; reflexivity|].
        destruct (Exc.isinstance e Exc.ConnectionError); [right; left; reflexivity|].
        destruct (Exc.isinstance e Exc.RequestException) eqn:Hkind;
          [right; left; reflexivity|].
        right. right. right. exists e. repeat split; trivial.
        right. exists r. now split.
    + destruct (status_code r =? 404); [right; left; reflexivity|].
      destruct (ok r); simpl; [|right; left; reflexivity].
      destruct (body r) as [v|detail|e] eqn:Hbody; simpl.
      * left. now exists v.
      * right. left. reflexivity.
      * destruct (Exc.isinstance e Exc.Timeout); [right; left; reflexivity|].
        destruct (Exc.isinstance e Exc.ConnectionError); [right; left; reflexivity|].
        destruct (Exc.isinstance e Exc.RequestException) eqn:Hkind;
          [right; left; reflexivity|].
        right. right. right. exists e. repeat split; trivial.
        right. exists r. now split.
  - destruct (Exc.isinstance e Exc.Timeout); [right; left; reflexivity|].
    destruct (Exc.isinstance e Exc.ConnectionError); [right; left; reflexivity|].
    destruct (Exc.isinstance e Exc.RequestException) eqn:Hkind;
      [right; left; reflexivity|].
    right. right. right. exists e. repeat split; trivial. now left.
Qed.

Lemma X6_track_usage_outcomes_witness :
  (exists v, fst (track_usage (answering (Responds huge_int_422)) example_repr
                    "openai" "gpt-4" 1500 500 None example_world) = Return v)
  \/ caught_by Exc.UsageTrackerError
       (fst (track_usage (answering (Responds huge_int_422)) example_repr
               "openai" "gpt-4" 1500 500 None example_world)) = true
  \/ (exists r v,
        Responds huge_int_422 = Responds r /\ status_code r = 422
        /\ body r = Decodes v /\ (forall d, v <> Py.PyDict d)
        /\ caught_by Exc.AttributeError
             (fst (track_usage (answering (Responds huge_int_422)) example_repr
                     "openai" "gpt-4" 1500 500 None example_world)) = true)
  \/ (exists e,
        Exc.isinstance e Exc.RequestException = false
        /\ fst (track_usage (answering (Responds huge_int_422)) example_repr
                  "openai" "gpt-4" 1500 500 None example_world) = Raise e
        /\ (Responds huge_int_422 = Fails e
            \/ exists r, Responds huge_int_422 = Responds r
                         /\ body r = DecoderRaises e)).
Proof.
  exact (X6_track_usage_outcomes (answering (Responds huge_int_422)) example_repr
           "openai" "gpt-4" 1500 500 None example_world (Responds huge_int_422)
           (answering_received_by_track_usage _ _ _ _ _ _ _ _)).
Defined.

(** X7.  A failure of the transport that is an exception of [requests]
    but neither a timeout nor a connection failure gives
    [UsageTrackerError] "Request failed: {detail}" in [track_usage];
    in [get_usage] every exception of [requests] gives it. *)
Theorem X7_other_transport_failure portal repr p m i o ts df dt w e :
  Exc.isinstance e Exc.RequestException = true ->
  (receives portal (track_usage portal repr p m i o ts) w (Fails e) ->
   Exc.isinstance e Exc.Timeout = false ->
   Exc.isinstance e Exc.ConnectionError = false ->
   fst (track_usage portal repr p m i o ts w) =
     Raise (Exc.make Exc.UsageTrackerError ("Request failed: " ++ Exc.message e)))
  /\ (receives portal (get_usage portal df dt) w (Fails e) ->
      fst (get_usage portal df dt w) =
        Raise (Exc.make Exc.UsageTrackerError ("Request failed: " ++ Exc.message e))).
Proof.
  intros Hrequests. split.
  - intros Hrecv Htimeout Hconn.
    rewrite (track_usage_mock _ _ _ _ _ _ _ _ _ Hrecv).
    mocked. now rewrite Htimeout, Hconn, Hrequests.
  - intros Hrecv. rewrite (get_usage_mock _ _ _ _ _ Hrecv).
    mocked. now rewrite Hrequests.
Qed.

Lemma X7_other_transport_failure_witness :
  fst (track_usage (answering (Fails too_many_redirects)) example_repr
         "openai" "gpt-4" 1500 500 None example_world) =
    Raise (Exc.make Exc.UsageTrackerError "Request failed: Exceeded 30 redirects.")
  /\ fst (get_usage (answering (Fails too_many_redirects)) None None
            example_world) =
     Raise (Exc.make Exc.UsageTrackerError "Request failed: Exceeded 30 redirects.").
Proof.
  split.
  - apply (proj1 (X7_other_transport_failure (answering (Fails too_many_redirects))
             example_repr "openai" "gpt-4" 1500 500 None None None
             example_world too_many_redirects eq_refl)
           (answering_received_by_track_usage _ _ _ _ _ _ _ _) eq_refl eq_refl).
  - apply (proj2 (X7_other_transport_failure (answering (Fails too_many_redirects))
             example_repr "openai" "gpt-4" 1500 500 None None None
             example_world too_many_redirects eq_refl)
           (answering_received_by_get_usage _ _ _ _)).
Defined.

(** X8.  An exception of the transport that is not an exception of
    [requests] passes through both operations as it is: no clause
    matches it, and it is not wrapped in [UsageTrackerError]. *)
Theorem X8_foreign_exception_propagates portal repr p m i o ts df dt w e :
  Exc.isinstance e Exc.RequestException = false ->
  (receives portal (track_usage portal repr p m i o ts) w (Fails e) ->
   fst (track_usage portal repr p m i o ts w) = Raise e)
  /\ (receives portal (get_usage portal df dt) w (Fails e) ->
      fst (get_usage portal df dt w) = Raise e).
Proof.
  intros Hforeign. destruct (not_request_exception e Hforeign) as [Htimeout Hconn].
  split; intros Hrecv.
  - rewrite (track_usage_mock _ _ _ _ _ _ _ _ _ Hrecv).
    mocked. now rewrite Htimeout, Hconn, Hforeign.
  - rewrite (get_usage_mock _ _ _ _ _ Hrecv).
    mocked. now rewrite Hforeign.
Qed.

Lemma X8_foreign_exception_propagates_witness :
  fst (track_usage (answering (Fails bad_timeout)) example_repr
         "openai" "gpt-4" 1500 500 None example_world) = Raise bad_timeout
  /\ fst (get_usage (answering (Fails bad_timeout)) None None example_world) =
     Raise bad_timeout.
Proof.
  split.
  - apply (proj1 (X8_foreign_exception_propagates (answering (Fails bad_timeout))
             example_repr "openai" "gpt-4" 1500 500 None None None
             example_world bad_timeout eq_refl)
           (answering_received_by_track_usage _ _ _ _ _ _ _ _)).
  - apply (proj2 (X8_foreign_exception_propagates (answering (Fails bad_timeout))
             example_repr "openai" "gpt-4" 1500 500 None None None
             example_world bad_timeout eq_refl)
           (answering_received_by_get_usage _ _ _ _)).
Defined.

(** ** The requests *)

(** X9.  The one request of a call carries the three headers of
    [_get_headers], with the bearer token of the instance, and the
    timeout of the instance; a POST has a JSON body and no query
    parameters, a GET has query parameters and no body. *)
Theorem X9_request_headers_and_timeout portal repr p m i o ts df dt w :
  (exists req,
     issued (snd (track_usage portal repr p m i o ts w)) = (issued w ++ [req])%list
     /\ Py.keys (headers req) = ["Authorization"; "Content-Type"; "User-Agent"]
     /\ Py.lookup (headers req) "Authorization" = Some ("Bearer " ++ auth_token (self w))
     /\ Py.lookup (headers req) "Content-Type" = Some "application/json"
     /\ Py.lookup (headers req) "User-Agent" = Some "TechSupportPortal-UsageTracker/1.0"
     /\ req_timeout req = timeout (self w)
     /\ json req <> None /\ params req = None)
  /\ (exists req,
     issued (snd (get_usage portal df dt w)) = (issued w ++ [req])%list
     /\ Py.keys (headers req) = ["Authorization"; "Content-Type"; "User-Agent"]
     /\ Py.lookup (headers req) "Authorization" = Some ("Bearer " ++ auth_token (self w))
     /\ Py.lookup (headers req) "Content-Type" = Some "application/json"
     /\ Py.lookup (headers req) "User-Agent" = Some "TechSupportPortal-UsageTracker/1.0"
     /\ req_timeout req = timeout (self w)
     /\ json req = None /\ params req <> None).
Proof.
  rewrite track_usage_world, get_usage_world. simpl.
  split; eexists; (split; [reflexivity|]); simpl;
    repeat split; discriminate.
Qed.

(** X10.  The request of a call is fixed by the instance and the
    arguments: it is the same whatever the portal does and whatever was
    issued before. *)
Theorem X10_request_depends_on_instance_only
    portal portal' repr repr' p m i o ts df dt w w' :
  self w = self w' ->
  request_issued (track_usage portal repr p m i o ts) w =
    request_issued (track_usage portal' repr' p m i o ts) w'
  /\ request_issued (get_usage portal df dt) w =
     request_issued (get_usage portal' df dt) w'.
Proof.
  intros Hself. unfold request_issued.
  rewrite !track_usage_world, !get_usage_world. simpl.
  rewrite !nth_error_snoc, Hself. split; reflexivity.
Qed.

Lemma X10_request_depends_on_instance_only_witness :
  request_issued (track_usage (answering (Responds unauthorized_401)) example_repr
                    "openai" "gpt-4" 1500 500 None) example_world =
    request_issued (track_usage (answering (Fails refused)) example_repr
                      "openai" "gpt-4" 1500 500 None)
      (snd (get_usage (answering (Fails refused)) None None example_world)).
Proof.
  apply (proj1 (X10_request_depends_on_instance_only
           (answering (Responds unauthorized_401)) (answering (Fails refused))
           example_repr example_repr "openai" "gpt-4" 1500 500 None None None
           example_world
           (snd (get_usage (answering (Fails refused)) None None example_world))
           eq_refl)).
Defined.

(** X11.  A caller that makes calls one after the other, whatever each
    of them does, leaves the instance as it was and has issued one
    request per call, in the order of the calls, each with the method of
    its operation, to the same address and with the same timeout. *)
Theorem X11_calls_in_sequence portal repr calls w :
  self (after_calls portal repr calls w) = self w
  /\ exists reqs,
       issued (after_calls portal repr calls w) = (issued w ++ reqs)%list
       /\ map method reqs = map method_of calls
       /\ Forall (fun req =>
                    url req = portal_url (self w) ++ "/api/usage"
                    /\ req_timeout req = timeout (self w)) reqs.
Proof.
  revert w. induction calls as [|c rest IH]; intros w; simpl.
  - split; [reflexivity|]. exists []. rewrite app_nil_r. repeat split. constructor.
  - assert (Hstep : exists req,
      snd (perform portal repr c w) =
        {| self := self w; issued := (issued w ++ [req])%list |}
      /\ method req = method_of c
      /\ url req = portal_url (self w) ++ "/api/usage"
      /\ req_timeout req = timeout (self w)).
    { destruct c as [p m i o ts | df dt]; simpl;
        [rewrite track_usage_world | rewrite get_usage_world];
        eexists; repeat split. }
    destruct Hstep as (req & Hworld & Hmethod & Hurl & Htimeout).
    rewrite Hworld.
    destruct (IH {| self := self w; issued := (issued w ++ [req])%list |})
      as (Hself & reqs & Hissued & Hmethods & Hreqs).
    simpl in Hself, Hissued, Hreqs.
    split; [exact Hself|].
    exists (req :: reqs). rewrite Hissued, <- app_assoc. simpl.
    repeat split.
    + now rewrite Hmethod, Hmethods.
    + constructor; [split; assumption | exact Hreqs].
Qed.

(** ** More on construction *)

Lemma rstrip_idempotent (chars s : string) :
  Py.rstrip chars (Py.rstrip chars s) = Py.rstrip chars s.
Proof.
  induction s as [|c rest IH]; [reflexivity|].
  simpl. destruct (Py.rstrip chars rest) as [|a kept] eqn:Hrest.
  - destruct (Py.mem c chars) eqn:Hc; [reflexivity|].
    simpl. now rewrite Hc.
  - change (Py.rstrip chars (String c (String a kept)))
      with (match Py.rstrip chars (String a kept) with
            | EmptyString => if Py.mem c chars then EmptyString else String c EmptyString
            | String x y => String c (String x y)
            end).
    now rewrite IH.
Qed.

Lemma endswith_cons (c : ascii) (s suffix : string) :
  endswith s suffix -> endswith (String c s) suffix.
Proof.
  intros [front ->]. now exists (String c front).
Qed.

Lemma rstrip_without_trailing_slash (s : string) :
  ~ endswith s "/" -> Py.rstrip "/" s = s.
Proof.
  induction s as [|c rest IH]; intros Hend; [reflexivity|].
  simpl. destruct rest as [|a rest'].
  - simpl. destruct (Ascii.eqb c "/") eqn:Hc; [|reflexivity].
    apply Ascii.eqb_eq in Hc. subst c. destruct Hend. now exists "".
  - rewrite IH.
    + reflexivity.
    + intros Hrest. apply Hend. now apply endswith_cons.
Qed.

(** X12.  Constructing again from the attributes of an instance gives
    the same instance: the stored address is already normalised. *)
Theorem X12_construction_idempotent (pu a pid : string) (t : Z) (obj : UsageTracker) :
  new pu a pid t = Return obj ->
  new (portal_url obj) (auth_token obj) (project_id obj) (timeout obj) = Return obj.
Proof.
  rewrite !new_cases. intros Hnew.
  destruct (Py.truthy (Py.rstrip "/" pu)) eqn:Hpu; simpl in Hnew; [|discriminate].
  destruct (Py.truthy a) eqn:Ha; simpl in Hnew; [|discriminate].
  destruct (Py.truthy pid) eqn:Hpid; simpl in Hnew; [|discriminate].
  injection Hnew as <-. simpl.
  now rewrite rstrip_idempotent, Hpu, Ha, Hpid.
Qed.

Lemma X12_construction_idempotent_witness :
  new "https://portal.example.com" "your-clerk-token" "your-project-id" 30 =
    Return {| portal_url := "https://portal.example.com";
              auth_token := "your-clerk-token";
              project_id := "your-project-id"; timeout := 30 |}.
Proof.
  apply (X12_construction_idempotent "https://portal.example.com///"
           "your-clerk-token" "your-project-id" 30
           {| portal_url := "https://portal.example.com";
              auth_token := "your-clerk-token";
              project_id := "your-project-id"; timeout := 30 |}).
  reflexivity.
Defined.

(** X13.  A [portal_url] that is not empty and does not end with a
    slash is stored as it is, with slashes inside it kept; the token,
    the project and the timeout are stored as given, and the timeout is
    not checked: zero and negative values are accepted. *)
Theorem X13_construction_stores_arguments (pu a pid : string) (t : Z) :
  pu <> "" -> ~ endswith pu "/" -> a <> "" -> pid <> "" ->
  new pu a pid t =
    Return {| portal_url := pu; auth_token := a; project_id := pid; timeout := t |}.
Proof.
  intros Hpu Hend Ha Hpid. rewrite new_cases.
  rewrite (rstrip_without_trailing_slash pu Hend).
  apply truthy_true in Hpu, Ha, Hpid. now rewrite Hpu, Ha, Hpid.
Qed.

Lemma X13_construction_stores_arguments_witness :
  new "https://portal.example.com//v2" "your-clerk-token" "your-project-id" (-1) =
    Return {| portal_url := "https://portal.example.com//v2";
              auth_token := "your-clerk-token";
              project_id := "your-project-id"; timeout := -1 |}.
Proof.
  apply (X13_construction_stores_arguments "https://portal.example.com//v2"
           "your-clerk-token" "your-project-id" (-1)); try discriminate.
  intros [front Hfront].
  repeat (destruct front as [|? front]; [discriminate Hfront|];
          injection Hfront as _ Hfront).
  destruct front; discriminate Hfront.
Defined.

(** X14.  When construction fails, the message names the first
    argument that is missing, in the order [portal_url], [auth_token],
    [project_id]; the exception is never an instance of
    [UsageTrackerError]. *)
Theorem X14_construction_error_names_first_missing (pu a pid : string) (t : Z) :
  (Py.rstrip "/" pu = "" ->
   new pu a pid t = Raise (Exc.make Exc.ValueError "portal_url is required"))
  /\ (Py.rstrip "/" pu <> "" -> a = "" ->
      new pu a pid t = Raise (Exc.make Exc.ValueError "auth_token is required"))
  /\ (Py.rstrip "/" pu <> "" -> a <> "" -> pid = "" ->
      new pu a pid t = Raise (Exc.make Exc.ValueError "project_id is required"))
  /\ (forall e, new pu a pid t = Raise e ->
      Exc.isinstance e Exc.UsageTrackerError = false).
Proof.
  rewrite new_cases. repeat split.
  - intros Hpu. apply truthy_false in Hpu. now rewrite Hpu.
  - intros Hpu Ha. apply truthy_true in Hpu. apply truthy_false in Ha.
    now rewrite Hpu, Ha.
  - intros Hpu Ha Hpid. apply truthy_true in Hpu, Ha. apply truthy_false in Hpid.
    now rewrite Hpu, Ha, Hpid.
  - intros e.
    destruct (Py.truthy (Py.rstrip "/" pu)); simpl; [|now intros [= <-]].
    destruct (Py.truthy a); simpl; [|now intros [= <-]].
    destruct (Py.truthy pid); simpl; [discriminate | now intros [= <-]].
Qed.

Lemma X14_construction_error_names_first_missing_witness :
  new "//" "" "" 30 = Raise (Exc.make Exc.ValueError "portal_url is required")
  /\ new "https://portal.example.com" "" "" 30 =
     Raise (Exc.make Exc.ValueError "auth_token is required")
  /\ new "https://portal.example.com" "your-clerk-token" "" 30 =
     Raise (Exc.make Exc.ValueError "project_id is required").
Proof.
  split; [|split].
  - apply (proj1 (X14_construction_error_names_first_missing "//" "" "" 30)).
    reflexivity.
  - apply (proj1 (proj2 (X14_construction_error_names_first_missing
                           "https://portal.example.com" "" "" 30)));
      [discriminate | reflexivity].
  - apply (proj1 (proj2 (proj2 (X14_construction_error_names_first_missing
                           "https://portal.example.com" "your-clerk-token" "" 30))));
      [discriminate | discriminate | reflexivity].
Defined.

(** ** Exceptions of the decoder *)

(** X15.  An exception that [response.json()] lets escape and that is
    not an exception of [requests] (the [ValueError] for an integer
    with too many digits, [RecursionError]) passes through as it is,
    not wrapped in [UsageTrackerError]: through both operations on a
    status outside 400..599, and through [track_usage] also on a 422. *)
Theorem X15_decoder_exception_propagates portal repr p m i o ts df dt w r e :
  body r = DecoderRaises e ->
  Exc.isinstance e Exc.RequestException = false ->
  (receives portal (track_usage portal repr p m i o ts) w (Responds r) ->
   status_code r = 422 \/ status_code r < 400 \/ 600 <= status_code r ->
   fst (track_usage portal repr p m i o ts w) = Raise e)
  /\ (receives portal (get_usage portal df dt) w (Responds r) ->
      status_code r < 400 \/ 600 <= status_code r ->
      fst (get_usage portal df dt w) = Raise e).
Proof.
  intros Hbody Hforeign.
  destruct (not_request_exception e Hforeign) as [Htimeout Hconn].
  split; intros Hrecv Hstatus.
  - rewrite (track_usage_mock _ _ _ _ _ _ _ _ _ Hrecv).
    assert (H401 : (status_code r =? 401) = false) by (apply status_not; lia).
    destruct Hstatus as [H422 | Hsuccess].
    + mocked. rewrite H422, Hbody. simpl.
      now rewrite Htimeout, Hconn, Hforeign.
    + assert (H422 : (status_code r =? 422) = false) by (apply status_not; lia).
      assert (H404 : (status_code r =? 404) = false) by (apply status_not; lia).
      mocked. rewrite H401, H422, H404, (ok_outside_errors r Hsuccess), Hbody.
      simpl. now rewrite Htimeout, Hconn, Hforeign.
  - rewrite (get_usage_mock _ _ _ _ _ Hrecv).
    assert (H401 : (status_code r =? 401) = false) by (apply status_not; lia).
    mocked. rewrite H401, (ok_outside_errors r Hstatus), Hbody.
    simpl. now rewrite Hforeign.
Qed.

Lemma X15_decoder_exception_propagates_witness :
  fst (track_usage (answering (Responds huge_int_422)) example_repr
         "openai" "gpt-4" 1500 500 None example_world) =
    Raise (Exc.make Exc.ValueError
             "Exceeds the limit (4300) for integer string conversion: value has 4301 digits; use sys.set_int_max_str_digits() to increase the limit")
  /\ fst (get_usage (answering (Responds deep_200)) None None example_world) =
     Raise (Exc.make Exc.RecursionError
              "maximum recursion depth exceeded while decoding a JSON array from a unicode string").
Proof.
  split.
  - apply (proj1 (X15_decoder_exception_propagates
             (answering (Responds huge_int_422)) example_repr
             "openai" "gpt-4" 1500 500 None None None example_world
             huge_int_422 _ eq_refl eq_refl)
           (answering_received_by_track_usage _ _ _ _ _ _ _ _)).
    left. reflexivity.
  - apply (proj2 (X15_decoder_exception_propagates
             (answering (Responds deep_200)) example_repr
             "openai" "gpt-4" 1500 500 None None None example_world
             deep_200 _ eq_refl eq_refl)
           (answering_received_by_get_usage _ _ _ _)).
    left. simpl. lia.
Defined.
